(** * Wardley-map scoring and strategic analysis

    A shallow embedding of the two algorithmic modules of the repository,

    - [heuristics_engine.py]  (class [HeuristicsEngine]: pattern table,
      heuristic rules, fuzzy matching, [score_component]), and
    - [strategic_analyzer.py] (class [StrategicAnalyzer]: the insight
      passes, the longest-path search, [analyze]),

    together with the properties of the specification that concern them.

    Conventions of the embedding.

    - A Python [float] that the code stores, returns and compares with
      literals (a score, a confidence) is an exact rational ([Q]); such a
      literal is the decimal it is written as, and [<], [<=], [>=] are the
      rational comparisons.  The one float that the code computes, the
      similarity ratio [1.0 - distance / max_length], is an IEEE 754
      binary64 number (a primitive [float]), and so is the threshold it is
      compared with: the literal [0.8] is the double nearest to 8/10,
      division and subtraction round to the nearest double.
    - A Python [str] is a [string]: a sequence of characters with code
      points 0 to 255, one [ascii] per character, so that [len(s)] is
      [String.length s].  A character above 127 is written by its code,
      as ["201"%char] for the capital E with acute accent.  The analyzer
      only concatenates, compares and searches strings.  The scorer also
      uses [lower()] and [strip()], which are Python's on these
      characters: [lower()] maps the letters A to Z and the capital
      letters 192 to 222 (the sign 215 apart) to the letter 32 places
      further, and [strip()] removes the white space 9 to 13, 28 to 32, 133
      and 160.
    - A [dict] that is only looked up is a [gmap]; a [dict] that is also
      iterated (the pattern table) is an association list in insertion
      order; a [set] is a [gset].
    - An exception is a constructor of [outcome]; a recursive search takes
      a fuel argument and [OutOfFuel] records that it was exhausted. *)

From Stdlib Require Import QArith Lqa String Ascii List.
From Stdlib Require Import Floats Uint63.
From stdpp Require Import gmap strings list fin_maps pretty.

Set Warnings "-inexact-float".

Local Open Scope string_scope.
Local Open Scope list_scope.

(** ** Comparisons of scores *)

Definition float_le (x y : Q) : bool := Qle_bool x y.
Definition float_lt (x y : Q) : bool := negb (Qle_bool y x).
Definition float_ge (x y : Q) : bool := Qle_bool y x.

(** ** String operations of Python used by the two modules *)

Module PyStr.

(** [needle in hay]: [needle] occurs as a contiguous block of [hay]. *)
Fixpoint contains (needle hay : string) : bool :=
  String.prefix needle hay ||
  match hay with
  | EmptyString => false
  | String _ rest => contains needle rest
  end.

(** The lower-case form of a character: the letters A..Z (65..90) and the
    capital letters with a diacritic (192..222, the multiplication sign 215
    excepted) have one, 32 places further. *)
Definition lower_char (c : ascii) : ascii :=
  let n := nat_of_ascii c in
  if ((65 <=? n)%nat && (n <=? 90)%nat)
     || ((192 <=? n)%nat && (n <=? 222)%nat && negb (n =? 215)%nat)
  then ascii_of_nat (n + 32) else c.

(** [s.lower()] *)
Fixpoint lower (s : string) : string :=
  match s with
  | EmptyString => EmptyString
  | String c rest => String (lower_char c) (lower rest)
  end.

(** The white-space characters: tab, line feed, vertical tab, form feed,
    carriage return, the four separators 28..31, the space, the next-line
    control 133 and the no-break space 160. *)
Definition is_space (c : ascii) : bool :=
  let n := nat_of_ascii c in
  ((9 <=? n)%nat && (n <=? 13)%nat) || ((28 <=? n)%nat && (n <=? 32)%nat)
  || (n =? 133)%nat || (n =? 160)%nat.

Fixpoint lstrip (s : string) : string :=
  match s with
  | EmptyString => EmptyString
  | String c rest => if is_space c then lstrip rest else s
  end.

Fixpoint rstrip (s : string) : string :=
  match s with
  | EmptyString => EmptyString
  | String c rest =>
      match rstrip rest with
      | EmptyString => if is_space c then EmptyString else String c EmptyString
      | r => String c r
      end
  end.

(** [s.strip()] *)
Definition strip (s : string) : string := rstrip (lstrip s).

(** [s.replace(a, b)] for single characters [a] and [b]. *)
Fixpoint replace_char (a b : ascii) (s : string) : string :=
  match s with
  | EmptyString => EmptyString
  | String c rest =>
      String (if Ascii.eqb c a then b else c) (replace_char a b rest)
  end.

(** [sep.join(parts)] *)
Fixpoint join (sep : string) (parts : list string) : string :=
  match parts with
  | [] => ""
  | [p] => p
  | p :: rest => p +:+ sep +:+ join sep rest
  end.

(** [str(n)] for a non-negative [int]. *)
Definition of_nat (n : nat) : string := pretty n.

End PyStr.

(** ** Outcomes of a call *)

Inductive exn : Type :=
  | UnboundLocalError (var : string)
  | IndexError.

Inductive outcome (A : Type) : Type :=
  | Ok (a : A)
  | Raise (e : exn)
  | OutOfFuel.

Arguments Ok {A} a.
Arguments Raise {A} e.
Arguments OutOfFuel {A}.

Definition bind {A B : Type} (m : outcome A) (f : A -> outcome B) : outcome B :=
  match m with
  | Ok a => f a
  | Raise e => Raise e
  | OutOfFuel => OutOfFuel
  end.

Notation "'do' x <- m ; k" := (bind m (fun x => k))
  (at level 20, x pattern, m at level 100, k at level 200, only parsing).

(** A [for] loop whose body may raise: the loop stops at the first
    iteration that does not complete. *)
Fixpoint for_each {A S : Type} (body : S -> A -> outcome S) (l : list A) (s : S)
  : outcome S :=
  match l with
  | [] => Ok s
  | x :: rest => do s' <- body s x; for_each body rest s'
  end.

Definition returns {A : Type} (m : outcome A) : Prop := exists a, m = Ok a.
Definition raises {A : Type} (m : outcome A) : Prop := exists e, m = Raise e.

(** ** The strategic analyzer ([strategic_analyzer.py]) *)

Module Analyzer.

Inductive InsightType : Type :=
  | STRENGTH
  | VULNERABILITY
  | OPPORTUNITY
  | THREAT
  | BOTTLENECK
  | EVOLUTION_READINESS.

Record StrategicInsight : Type := {
  type : InsightType;
  component : string;
  title : string;
  description : string;
  impact : string;
  actionable : bool;
  recommendation : option string;
  confidence : Q
}.

Record MapAnalysis : Type := {
  total_components : nat;
  total_dependencies : nat;
  insights : list StrategicInsight;
  vulnerabilities : list string;
  opportunities : list string;
  threats : list string;
  strategic_recommendations : list string;
  evolution_trajectory : gmap string string;
  competitive_advantages : list string;
  critical_path : list string
}.

(** A component dict with the keys ['name'], ['evolution'], ['visibility']. *)
Record Component : Type := {
  name : string;
  evolution : Q;
  visibility : Q
}.

(** A dependency tuple [(source, target)]. *)
Definition Edge : Type := string * string.

(** The objects a call of [analyze] can reach: the caller's two lists,
    passed by reference, and the [MapAnalysis] under construction.  Every
    method takes the heap and returns the heap it leaves behind. *)
Record Heap : Type := {
  components : list Component;
  dependencies : list Edge;
  analysis : MapAnalysis
}.

(** *** Updates of the analysis object *)

Definition with_analysis (f : MapAnalysis -> MapAnalysis) (h : Heap) : Heap :=
  {| components := components h;
     dependencies := dependencies h;
     analysis := f (analysis h) |}.

(** [analysis.insights.append(i)] *)
Definition append_insight (i : StrategicInsight) (a : MapAnalysis) : MapAnalysis :=
  {| total_components := total_components a;
     total_dependencies := total_dependencies a;
     insights := insights a ++ [i];
     vulnerabilities := vulnerabilities a;
     opportunities := opportunities a;
     threats := threats a;
     strategic_recommendations := strategic_recommendations a;
     evolution_trajectory := evolution_trajectory a;
     competitive_advantages := competitive_advantages a;
     critical_path := critical_path a |}.

(** [analysis.vulnerabilities.append(s)] *)
Definition append_vulnerability (s : string) (a : MapAnalysis) : MapAnalysis :=
  {| total_components := total_components a;
     total_dependencies := total_dependencies a;
     insights := insights a;
     vulnerabilities := vulnerabilities a ++ [s];
     opportunities := opportunities a;
     threats := threats a;
     strategic_recommendations := strategic_recommendations a;
     evolution_trajectory := evolution_trajectory a;
     competitive_advantages := competitive_advantages a;
     critical_path := critical_path a |}.

(** [analysis.opportunities.append(s)] *)
Definition append_opportunity (s : string) (a : MapAnalysis) : MapAnalysis :=
  {| total_components := total_components a;
     total_dependencies := total_dependencies a;
     insights := insights a;
     vulnerabilities := vulnerabilities a;
     opportunities := opportunities a ++ [s];
     threats := threats a;
     strategic_recommendations := strategic_recommendations a;
     evolution_trajectory := evolution_trajectory a;
     competitive_advantages := competitive_advantages a;
     critical_path := critical_path a |}.

(** [analysis.threats.append(s)] *)
Definition append_threat (s : string) (a : MapAnalysis) : MapAnalysis :=
  {| total_components := total_components a;
     total_dependencies := total_dependencies a;
     insights := insights a;
     vulnerabilities := vulnerabilities a;
     opportunities := opportunities a;
     threats := threats a ++ [s];
     strategic_recommendations := strategic_recommendations a;
     evolution_trajectory := evolution_trajectory a;
     competitive_advantages := competitive_advantages a;
     critical_path := critical_path a |}.

(** [analysis.competitive_advantages.append(s)] *)
Definition append_advantage (s : string) (a : MapAnalysis) : MapAnalysis :=
  {| total_components := total_components a;
     total_dependencies := total_dependencies a;
     insights := insights a;
     vulnerabilities := vulnerabilities a;
     opportunities := opportunities a;
     threats := threats a;
     strategic_recommendations := strategic_recommendations a;
     evolution_trajectory := evolution_trajectory a;
     competitive_advantages := competitive_advantages a ++ [s];
     critical_path := critical_path a |}.

(** [analysis.evolution_trajectory[k] = v] *)
Definition set_trajectory (k v : string) (a : MapAnalysis) : MapAnalysis :=
  {| total_components := total_components a;
     total_dependencies := total_dependencies a;
     insights := insights a;
     vulnerabilities := vulnerabilities a;
     opportunities := opportunities a;
     threats := threats a;
     strategic_recommendations := strategic_recommendations a;
     evolution_trajectory := <[k := v]> (evolution_trajectory a);
     competitive_advantages := competitive_advantages a;
     critical_path := critical_path a |}.

(** [analysis.critical_path = p] *)
Definition set_critical_path (p : list string) (a : MapAnalysis) : MapAnalysis :=
  {| total_components := total_components a;
     total_dependencies := total_dependencies a;
     insights := insights a;
     vulnerabilities := vulnerabilities a;
     opportunities := opportunities a;
     threats := threats a;
     strategic_recommendations := strategic_recommendations a;
     evolution_trajectory := evolution_trajectory a;
     competitive_advantages := competitive_advantages a;
     critical_path := p |}.

(** [analysis.strategic_recommendations = r] *)
Definition set_recommendations (r : list string) (a : MapAnalysis) : MapAnalysis :=
  {| total_components := total_components a;
     total_dependencies := total_dependencies a;
     insights := insights a;
     vulnerabilities := vulnerabilities a;
     opportunities := opportunities a;
     threats := threats a;
     strategic_recommendations := r;
     evolution_trajectory := evolution_trajectory a;
     competitive_advantages := competitive_advantages a;
     critical_path := critical_path a |}.

(** *** [_stage_label] *)

Definition _stage_label (evolution : Q) : string :=
  if float_lt evolution 0.25 then "Genesis"
  else if float_lt evolution 0.55 then "Custom"
  else if float_lt evolution 0.8 then "Product"
  else "Commodity".

(** *** [_build_dependency_graph], [_build_reverse_dependency_graph] *)

(** [graph[k].append(v)], after [graph[k] = []] when [k] is a new key. *)
Definition graph_append (graph : gmap string (list string)) (k v : string)
  : gmap string (list string) :=
  <[k := default [] (graph !! k) ++ [v]]> graph.

Definition _build_dependency_graph (dependencies : list Edge)
  : gmap string (list string) :=
  foldl (fun graph '(source, target) => graph_append graph source target)
        ∅ dependencies.

Definition _build_reverse_dependency_graph (dependencies : list Edge)
  : gmap string (list string) :=
  foldl (fun graph '(source, target) => graph_append graph target source)
        ∅ dependencies.

(** *** [_identify_strengths] *)

Definition strengths_body (h : Heap) (comp : Component) : Heap :=
  let n := name comp in
  let e := evolution comp in
  let v := visibility comp in
  let h :=
    if float_le 0.25 e && float_le e 0.55 && float_ge v 0.4 then
      with_analysis (fun a =>
        append_advantage n
          (append_insight
             {| type := STRENGTH;
                component := n;
                title := n +:+ ": Core Competitive Advantage";
                description :=
                  "Custom-built component at " +:+ _stage_label e +:+ " stage. "
                  +:+ "This is a key differentiator that competitors cannot easily replicate.";
                impact := "high";
                actionable := false;
                recommendation :=
                  Some ("Protect and continuously improve " +:+ n
                        +:+ ". Monitor for commoditization signals.");
                confidence := 0.85 |} a)) h
    else h in
  if float_lt e 0.25 && float_ge v 0.5 then
    with_analysis (fun a =>
      append_advantage n
        (append_insight
           {| type := STRENGTH;
              component := n;
              title := n +:+ ": Innovation Leader";
              description :=
                "Genesis-stage innovation in " +:+ n
                +:+ ". This represents your capability "
                +:+ "to drive market disruption.";
              impact := "high";
              actionable := false;
              recommendation :=
                Some ("Invest in scaling and productizing " +:+ n
                      +:+ " quickly to capitalize on first-mover advantage.");
              confidence := 0.9 |} a)) h
  else h.

Definition _identify_strengths (h : Heap) : Heap :=
  foldl strengths_body h (components h).

(** *** [_identify_vulnerabilities] *)

(** The insight appended for an edge [n -> dep_target] of the first branch. *)
Definition infrastructure_risk (n dep_target : string) : StrategicInsight :=
  {| type := VULNERABILITY;
     component := n;
     title := n +:+ ": Infrastructure Risk";
     description :=
       n +:+ " is a high-value component that depends on " +:+ dep_target +:+ ", "
       +:+ "a commodity component. Commodity components are subject to price compression, "
       +:+ "feature commoditization, and vendor lock-in risks.";
     impact := "high";
     actionable := true;
     recommendation :=
       Some ("Evaluate alternative providers for " +:+ dep_target +:+ " or develop "
             +:+ "in-house capability to reduce dependency.");
     confidence := 0.8 |}.

(** The insight appended by the second branch; [provider] is
    [list(providers)[0]]. *)
Definition single_point_of_failure (n provider : string) : StrategicInsight :=
  {| type := VULNERABILITY;
     component := n;
     title := n +:+ ": Single Point of Failure";
     description :=
       n +:+ " is a critical custom component with a single dependency: "
       +:+ provider +:+ ". This creates supply chain risk.";
     impact := "medium";
     actionable := true;
     recommendation :=
       Some ("Diversify dependencies for " +:+ n
             +:+ " by introducing redundancy or alternatives.");
     confidence := 0.75 |}.

(** The inner loop [for dep_target in deps]. *)
Definition infrastructure_body (n : string) (h : Heap) (dep_target : string) : Heap :=
  (* next((c for c in components if c['name'] == dep_target), None) *)
  match find (fun c => String.eqb (name c) dep_target) (components h) with
  | Some target_comp =>
      if float_ge (evolution target_comp) 0.8 then
        with_analysis (fun a =>
          append_vulnerability (n +:+ " → " +:+ dep_target)
            (append_insight (infrastructure_risk n dep_target) a)) h
      else h
  | None => h
  end.

(** [list(providers)[0]]: the first element in the iteration order of the
    set, [IndexError] when there is none. *)
Definition first_of (set_iter : gset string -> list string) (providers : gset string)
  : outcome string :=
  match set_iter providers with
  | x :: _ => Ok x
  | [] => Raise IndexError
  end.

(** One iteration of [for comp in components].  The local variable [deps]
    is bound by the first [if] only; it is [None] while it has never been
    bound, and it keeps its value from one iteration to the next. *)
Definition vulnerabilities_body
    (set_iter : gset string -> list string)
    (dep_graph : gmap string (list string))
    (st : Heap * option (list string)) (comp : Component)
  : outcome (Heap * option (list string)) :=
  let '(h, deps) := st in
  let n := name comp in
  let v := visibility comp in
  let e := evolution comp in
  let '(h, deps) :=
    if float_ge v 0.7 then
      let deps := default [] (dep_graph !! n) in
      (foldl (infrastructure_body n) h deps, Some deps)
    else (h, deps) in
  if float_le 0.25 e && float_le e 0.55 then
    match deps with
    | None => Raise (UnboundLocalError "deps")
    | Some ds =>
        if (0 <? length ds)%nat then
          let providers : gset string := list_to_set ds in
          if (size providers =? 1)%nat then
            do p1 <- first_of set_iter providers;
            do p2 <- first_of set_iter providers;
            Ok (with_analysis (fun a =>
                  append_vulnerability (n +:+ ": Single source - " +:+ p2)
                    (append_insight (single_point_of_failure n p1) a)) h,
                deps)
          else Ok (h, deps)
        else Ok (h, deps)
    end
  else Ok (h, deps).

Definition _identify_vulnerabilities
    (set_iter : gset string -> list string) (h : Heap) : outcome Heap :=
  let dep_graph := _build_dependency_graph (dependencies h) in
  do st <- for_each (vulnerabilities_body set_iter dep_graph) (components h) (h, None);
  Ok (fst st).

(** *** [_identify_opportunities] *)

Definition opportunities_body (h : Heap) (comp : Component) : Heap :=
  let n := name comp in
  let e := evolution comp in
  let v := visibility comp in
  let h :=
    if float_le 0.4 e && float_le e 0.55 && float_ge v 0.4 then
      with_analysis (fun a =>
        append_opportunity n
          (append_insight
             {| type := OPPORTUNITY;
                component := n;
                title := n +:+ ": Commoditization Opportunity";
                description :=
                  n +:+ " is a mature custom component approaching the product stage. "
                  +:+ "This is an opportunity to package it as a standalone product or service offering.";
                impact := "high";
                actionable := true;
                recommendation :=
                  Some ("Evaluate productizing " +:+ n
                        +:+ " as a separate offering or licensing it to partners.");
                confidence := 0.8 |} a)) h
    else h in
  let h :=
    if float_lt e 0.25 then
      with_analysis (fun a =>
        append_opportunity n
          (append_insight
             {| type := OPPORTUNITY;
                component := n;
                title := n +:+ ": Market Disruption Potential";
                description :=
                  n +:+ " is a genesis-stage innovation. This represents an untapped market opportunity "
                  +:+ "before competitors enter.";
                impact := "high";
                actionable := true;
                recommendation :=
                  Some ("Accelerate development and market entry for " +:+ n
                        +:+ " to establish market leadership.");
                confidence := 0.85 |} a)) h
    else h in
  if float_ge e 0.85 && float_ge v 0.7 then
    with_analysis (fun a =>
      append_opportunity (n +:+ " (expansion)")
        (append_insight
           {| type := OPPORTUNITY;
              component := n;
              title := n +:+ ": Expansion Opportunity";
              description :=
                n +:+ " is a mature, customer-facing component. This is an opportunity "
                +:+ "to expand feature set or enter adjacent markets.";
              impact := "medium";
              actionable := true;
              recommendation :=
                Some ("Identify adjacent use cases and markets for " +:+ n +:+ " expansion.");
              confidence := 0.75 |} a)) h
  else h.

Definition _identify_opportunities (h : Heap) : Heap :=
  foldl opportunities_body h (components h).

(** *** [_identify_threats] *)

Definition threats_body (h : Heap) (comp : Component) : Heap :=
  let n := name comp in
  let e := evolution comp in
  let h :=
    if float_le 0.3 e && float_le e 0.45 then
      with_analysis (fun a =>
        append_threat n
          (append_insight
             {| type := THREAT;
                component := n;
                title := n +:+ ": Commoditization Threat";
                description :=
                  n +:+ " is transitioning from custom to product stage. Competitors may be "
                  +:+ "developing similar solutions, threatening your competitive advantage.";
                impact := "high";
                actionable := true;
                recommendation :=
                  Some ("Accelerate feature development and market education for " +:+ n
                        +:+ " to maintain competitive lead.");
                confidence := 0.8 |} a)) h
    else h in
  if float_le 0.55 e && float_lt e 0.8 then
    with_analysis (fun a =>
      append_threat (n +:+ " (competition)")
        (append_insight
           {| type := THREAT;
              component := n;
              title := n +:+ ": Increasing Competition";
              description :=
                n +:+ " is at product stage with multiple competitors likely entering the market. "
                +:+ "Margin compression is inevitable.";
              impact := "medium";
              actionable := true;
              recommendation :=
                Some ("Plan cost reduction and feature differentiation for " +:+ n
                      +:+ " to compete on value, not just price.");
              confidence := 0.75 |} a)) h
  else h.

Definition _identify_threats (h : Heap) : Heap :=
  foldl threats_body h (components h).

(** *** [_identify_bottlenecks] *)

Definition bottlenecks_body (reverse_dep_graph : gmap string (list string))
    (h : Heap) (comp : Component) : Heap :=
  let n := name comp in
  let dependents := default [] (reverse_dep_graph !! n) in
  if (3 <=? length dependents)%nat then
    if float_lt (evolution comp) 0.7 then
      with_analysis
        (append_insight
           {| type := BOTTLENECK;
              component := n;
              title := n +:+ ": Critical Bottleneck";
              description :=
                n +:+ " is a critical infrastructure component that "
                +:+ PyStr.of_nat (length dependents) +:+ " other "
                +:+ "components depend on. Its unstable nature ("
                +:+ _stage_label (evolution comp) +:+ ") "
                +:+ "creates system-wide risk.";
              impact := "high";
              actionable := true;
              recommendation :=
                Some ("Stabilize and harden " +:+ n
                      +:+ ". Consider introducing redundancy or failover mechanisms.");
              confidence := 0.85 |}) h
    else h
  else h.

Definition _identify_bottlenecks (h : Heap) : Heap :=
  let dep_graph := _build_dependency_graph (dependencies h) in
  let reverse_dep_graph := _build_reverse_dependency_graph (dependencies h) in
  foldl (bottlenecks_body reverse_dep_graph) h (components h).

(** *** [_assess_evolution_readiness] *)

(** The [if]/[elif] chain of the loop body: [(current, stage_target)], or
    [None] where the source says [continue]. *)
Definition readiness_stage (e : Q) : option (string * string) :=
  if float_lt e 0.25 then Some ("Genesis", "Product")
  else if float_lt e 0.55 then Some ("Custom", "Product")
  else if float_lt e 0.8 then Some ("Product", "Commodity")
  else None.

Definition readiness_insight (n current stage_target : string) : StrategicInsight :=
  {| type := EVOLUTION_READINESS;
     component := n;
     title := n +:+ ": Evolution Path " +:+ current +:+ " → " +:+ stage_target;
     description :=
       n +:+ " is approaching maturity for evolution to " +:+ stage_target +:+ ". "
       +:+ "Preparation should begin now.";
     impact := "medium";
     actionable := true;
     recommendation :=
       Some ("Start preparing " +:+ n +:+ " for evolution to " +:+ stage_target +:+ ": "
             +:+ "standardize interfaces, increase reliability, reduce cost.");
     confidence := 0.8 |}.

Definition readiness_body (h : Heap) (comp : Component) : Heap :=
  let n := name comp in
  match readiness_stage (evolution comp) with
  | None => h
  | Some (current, stage_target) =>
      with_analysis (fun a =>
        set_trajectory n (current +:+ " → " +:+ stage_target)
          (append_insight (readiness_insight n current stage_target) a)) h
  end.

Definition _assess_evolution_readiness (h : Heap) : Heap :=
  foldl readiness_body h (components h).

(** *** [_dfs_longest_path] *)

(** The parameter [visited] is a reference to a set owned by the caller
    (or [None]); the second component of the result is that object as the
    call leaves it.  The call rebinds its local name to a copy before it
    adds [start], and hands the copy to each recursive call in turn. *)

(** One iteration of [for neighbor in graph[start]]; the state is the
    pair of the locals [longest] and [visited], and [recurse] is the
    recursive call. *)
Definition dfs_neighbor
    (recurse : string -> option (gset string) ->
               outcome (list string * option (gset string)))
    (start : string) (st : list string * gset string) (neighbor : string)
  : outcome (list string * gset string) :=
  let '(longest, visited) := st in
  do r <- recurse neighbor (Some visited);
  let '(path, after) := r in
  let visited := default visited after in
  if (length longest <? length path + 1)%nat
  then Ok (start :: path, visited)
  else Ok (longest, visited).

Fixpoint _dfs_longest_path (fuel : nat) (start : string)
    (graph : gmap string (list string)) (components : list Component)
    (visited : option (gset string))
  : outcome (list string * option (gset string)) :=
  match fuel with
  | O => OutOfFuel
  | S fuel' =>
      let caller := visited in
      (* if visited is None: visited = set() *)
      let visited : gset string := default ∅ visited in
      if bool_decide (start ∈ visited) then Ok ([start], caller)
      else
        (* visited = visited.copy(); visited.add(start) *)
        let visited := visited ∪ {[start]} in
        match graph !! start with
        | None => Ok ([start], caller)
        | Some [] => Ok ([start], caller)
        | Some neighbors =>
            do st <- for_each
                 (dfs_neighbor
                    (fun neighbor v =>
                       _dfs_longest_path fuel' neighbor graph components v)
                    start)
                 neighbors ([start], visited);
            Ok (fst st, caller)
        end
  end.

(** *** [_identify_critical_path] *)

(** [paths.sort(key=len, reverse=True)]: a stable sort, longest first;
    paths of equal length keep their order. *)
Fixpoint insert_by_len (p : list string) (sorted : list (list string))
  : list (list string) :=
  match sorted with
  | [] => [p]
  | q :: rest =>
      if (length p <? length q)%nat then q :: insert_by_len p rest
      else p :: q :: rest
  end.

Definition sort_by_len_desc (paths : list (list string)) : list (list string) :=
  foldr insert_by_len [] paths.

Definition critical_path_body (fuel : nat) (dep_graph : gmap string (list string))
    (components : list Component)
    (longest_paths : list (list string)) (comp : Component)
  : outcome (list (list string)) :=
  if float_lt (evolution comp) 0.25 then
    do r <- _dfs_longest_path fuel (name comp) dep_graph components None;
    match fst r with
    | [] => Ok longest_paths
    | path => Ok (longest_paths ++ [path])
    end
  else Ok longest_paths.

Definition _identify_critical_path (fuel : nat) (h : Heap) : outcome Heap :=
  let dep_graph := _build_dependency_graph (dependencies h) in
  do longest_paths <-
     for_each (critical_path_body fuel dep_graph (components h)) (components h) [];
  match sort_by_len_desc longest_paths with
  | [] => Ok h
  | longest :: _ => Ok (with_analysis (set_critical_path longest) h)
  end.

(** *** [_generate_recommendations] *)

Definition names_of_first3 (cs : list Component) : string :=
  PyStr.join ", " (map name (firstn 3 cs)).

Definition _generate_recommendations (h : Heap) : Heap :=
  let cs := components h in
  let a := analysis h in
  let recommendations : list string := [] in
  let genesis_comps := List.filter (fun c => float_lt (evolution c) 0.25) cs in
  let recommendations :=
    match genesis_comps with
    | [] => recommendations
    | _ =>
        recommendations ++
        ["INNOVATION LEADERSHIP: Accelerate development of genesis-stage innovations ("
         +:+ names_of_first3 genesis_comps +:+ ") "
         +:+ "to establish market leadership before competitors enter."]
    end in
  let custom_comps :=
    List.filter (fun c => float_le 0.25 (evolution c) && float_le (evolution c) 0.55
                          && float_ge (visibility c) 0.4) cs in
  let recommendations :=
    match custom_comps with
    | [] => recommendations
    | _ =>
        recommendations ++
        ["COMPETITIVE MOAT: Protect your custom differentiators ("
         +:+ names_of_first3 custom_comps +:+ ") "
         +:+ "from commoditization through continuous innovation and network effects."]
    end in
  let commodity_deps :=
    flat_map (fun c =>
      flat_map (fun d =>
        if PyStr.contains (name c) d && float_ge (visibility c) 0.7
        then [(name c, d)] else []) (vulnerabilities a)) cs in
  let recommendations :=
    match commodity_deps with
    | [] => recommendations
    | _ =>
        recommendations ++
        ["SUPPLY CHAIN RESILIENCE: Diversify or develop in-house alternatives for critical "
         +:+ "commodity dependencies to reduce vendor lock-in risk."]
    end in
  let product_ready :=
    List.filter (fun c => float_le 0.4 (evolution c) && float_le (evolution c) 0.55) cs in
  let recommendations :=
    match product_ready with
    | [] => recommendations
    | _ =>
        recommendations ++
        ["NEW REVENUE STREAMS: Evaluate productizing mature custom components "
         +:+ "(" +:+ names_of_first3 product_ready +:+ ") for external monetization."]
    end in
  let recommendations :=
    if bool_decide (evolution_trajectory a = ∅) then recommendations
    else
      recommendations ++
      ["EVOLUTIONARY PLANNING: Begin preparation for components approaching next evolution stage. "
       +:+ "Standardize interfaces, increase reliability, optimize cost."] in
  with_analysis (set_recommendations recommendations) h.

(** *** [analyze] *)

(** [MapAnalysis(total_components=..., total_dependencies=...)]: the other
    fields take their default, an empty list or dict. *)
Definition MapAnalysis_new (total_components total_dependencies : nat) : MapAnalysis :=
  {| total_components := total_components;
     total_dependencies := total_dependencies;
     insights := [];
     vulnerabilities := [];
     opportunities := [];
     threats := [];
     strategic_recommendations := [];
     evolution_trajectory := ∅;
     competitive_advantages := [];
     critical_path := [] |}.

(** The body of [analyze], for a given iteration order of sets and a given
    fuel for the search.  The result is the heap at the [return]: its
    [analysis] is the value returned, its [components] and [dependencies]
    are the caller's lists as the call leaves them. *)
Definition analyze_run (set_iter : gset string -> list string) (fuel : nat)
    (components : list Component) (dependencies : list Edge) : outcome Heap :=
  let h := {| components := components;
              dependencies := dependencies;
              analysis := MapAnalysis_new (length components) (length dependencies) |} in
  let h := _identify_strengths h in
  do h <- _identify_vulnerabilities set_iter h;
  let h := _identify_opportunities h in
  let h := _identify_threats h in
  let h := _identify_bottlenecks h in
  let h := _assess_evolution_readiness h in
  do h <- _identify_critical_path fuel h;
  let h := _generate_recommendations h in
  Ok h.

(** The search visits every node at most once along a path and follows
    only keys of the graph, of which there are at most as many as edges:
    this fuel is never exhausted (lemma [dfs_enough_fuel] below). *)
Definition search_fuel (dependencies : list Edge) : nat := S (length dependencies).

Definition analyze (components : list Component) (dependencies : list Edge)
  : outcome MapAnalysis :=
  do h <- analyze_run elements (search_fuel dependencies) components dependencies;
  Ok (analysis h).

(** *** The example of the module's [__main__] block *)

Definition test_components : list Component :=
  [ {| name := "Customer Portal"; visibility := 0.95; evolution := 0.7 |};
    {| name := "Recommendation Engine"; visibility := 0.6; evolution := 0.35 |};
    {| name := "PostgreSQL Database"; visibility := 0.1; evolution := 0.9 |};
    {| name := "Custom ML Model"; visibility := 0.4; evolution := 0.2 |};
    {| name := "AWS Infrastructure"; visibility := 0.05; evolution := 0.95 |} ].

Definition test_dependencies : list Edge :=
  [ ("Customer Portal", "Recommendation Engine");
    ("Recommendation Engine", "Custom ML Model");
    ("Custom ML Model", "PostgreSQL Database");
    ("PostgreSQL Database", "AWS Infrastructure") ].

(** *** Notions used to state the properties *)

(** [h'] holds the same two argument lists as [h]. *)
Definition same_arguments (h h' : Heap) : Prop :=
  components h' = components h /\ dependencies h' = dependencies h.

(** The nodes the search can still enter: keys of the graph that are not
    on the current path. *)
Definition unvisited (graph : gmap string (list string))
    (visited : option (gset string)) : nat :=
  size (dom graph ∖ default ∅ visited).

(** An admissible iteration order of sets: [list(X)] enumerates the
    elements of [X], each once, in an order that Python leaves open (it
    depends on the hashes of the elements). *)
Definition set_listing (set_iter : gset string -> list string) : Prop :=
  forall X, set_iter X ≡ₚ elements X.

(** The passes of [analyze] before the search for the critical path. *)
Definition analyze_passes (set_iter : gset string -> list string)
    (components : list Component) (dependencies : list Edge) : outcome Heap :=
  let h := {| components := components;
              dependencies := dependencies;
              analysis := MapAnalysis_new (length components) (length dependencies) |} in
  do h <- _identify_vulnerabilities set_iter (_identify_strengths h);
  Ok (_assess_evolution_readiness
        (_identify_bottlenecks (_identify_threats (_identify_opportunities h)))).

End Analyzer.

(** ** The heuristics engine ([heuristics_engine.py]) *)

Module Heuristics.

Inductive EvolutionStage : Type :=
  | GENESIS
  | CUSTOM
  | PRODUCT
  | COMMODITY.

Record HeuristicRule : Type := {
  condition : string;
  stage : EvolutionStage;
  confidence : Q;
  domain : string;
  priority : Z
}.

(** [HeuristicRule(condition=..., stage=..., confidence=..., domain=...)]:
    [priority] takes its default, 1. *)
Definition rule (condition : string) (stage : EvolutionStage) (confidence : Q)
    (domain : string) : HeuristicRule :=
  {| condition := condition; stage := stage; confidence := confidence;
     domain := domain; priority := 1 |}.

Record ComponentPattern : Type := {
  name : string;
  category : string;
  default_stage : EvolutionStage;
  default_visibility : Q;
  examples : list string;
  characteristics : list (string * string)
}.

(** A value of the context mapping, with Python's truth value. *)
Inductive PyVal : Type :=
  | PNone
  | PBool (b : bool)
  | PStr (s : string)
  | PNum (q : Q).

Definition truthy (v : PyVal) : bool :=
  match v with
  | PNone => false
  | PBool b => b
  | PStr s => negb (String.eqb s "")
  | PNum q => negb (Qeq_bool q 0)
  end.

(** The pattern table is iterated in insertion order. *)
Definition PatternTable : Type := list (string * ComponentPattern).

(** [table[key]] for [key in table] *)
Fixpoint table_get (key : string) (table : PatternTable) : option ComponentPattern :=
  match table with
  | [] => None
  | (k, p) :: rest => if String.eqb k key then Some p else table_get key rest
  end.

(** [table[key] = p]: an existing key keeps its place. *)
Fixpoint table_set (key : string) (p : ComponentPattern) (table : PatternTable)
  : PatternTable :=
  match table with
  | [] => [(key, p)]
  | (k, q) :: rest =>
      if String.eqb k key then (k, p) :: rest else (k, q) :: table_set key p rest
  end.

(** [table.update(other)] *)
Definition table_update (table other : PatternTable) : PatternTable :=
  foldl (fun t '(k, p) => table_set k p t) table other.

(** The attributes of the engine that scoring reads.  (The stage
    descriptors and [domain_knowledge] are used for narrative output
    only.) *)
Record HeuristicsEngine : Type := {
  rules : list HeuristicRule;
  patterns : PatternTable
}.

Definition mature : list (string * string) :=
  [("maturity", "mature"); ("adoption", "widespread"); ("margin", "low")].
Definition product_growing : list (string * string) :=
  [("maturity", "product"); ("adoption", "growing"); ("margin", "medium")].
Definition product_rapid : list (string * string) :=
  [("maturity", "product"); ("adoption", "rapidly increasing"); ("margin", "medium")].

Definition _initialize_patterns (self : HeuristicsEngine) : HeuristicsEngine :=
  let patterns_ : PatternTable :=
    [ ("PostgreSQL",
       {| name := "PostgreSQL"; category := "Database";
          default_stage := COMMODITY; default_visibility := 0.15;
          examples := ["Relational DB"; "RDBMS"; "SQL Database"];
          characteristics := mature |});
      ("MySQL",
       {| name := "MySQL"; category := "Database";
          default_stage := COMMODITY; default_visibility := 0.15;
          examples := ["MySQL"; "MariaDB"];
          characteristics := mature |});
      ("MongoDB",
       {| name := "MongoDB"; category := "Database";
          default_stage := PRODUCT; default_visibility := 0.15;
          examples := ["NoSQL DB"; "Document Database"];
          characteristics := product_growing |});
      ("React",
       {| name := "React"; category := "Frontend Framework";
          default_stage := PRODUCT; default_visibility := 0.8;
          examples := ["React.js"; "ReactJS"; "React Frontend"];
          characteristics := product_rapid |});
      ("Vue",
       {| name := "Vue"; category := "Frontend Framework";
          default_stage := PRODUCT; default_visibility := 0.8;
          examples := ["Vue.js"; "VueJS"];
          characteristics := product_rapid |});
      ("AWS",
       {| name := "AWS"; category := "Cloud Infrastructure";
          default_stage := COMMODITY; default_visibility := 0.1;
          examples := ["Amazon Web Services"; "EC2"; "S3"];
          characteristics := mature |});
      ("Kubernetes",
       {| name := "Kubernetes"; category := "Container Orchestration";
          default_stage := COMMODITY; default_visibility := 0.05;
          examples := ["K8s"; "K8S"; "Kubernetes"];
          characteristics := mature |});
      ("TensorFlow",
       {| name := "TensorFlow"; category := "ML Framework";
          default_stage := PRODUCT; default_visibility := 0.3;
          examples := ["TensorFlow"; "TF"];
          characteristics := product_growing |});
      ("PyTorch",
       {| name := "PyTorch"; category := "ML Framework";
          default_stage := PRODUCT; default_visibility := 0.3;
          examples := ["PyTorch"; "Torch"];
          characteristics := product_growing |});
      ("ML Model",
       {| name := "Custom ML Model"; category := "ML Model";
          default_stage := CUSTOM; default_visibility := 0.4;
          examples := ["Machine Learning"; "Custom Model"; "Proprietary Algorithm"];
          characteristics :=
            [("maturity", "custom"); ("adoption", "proprietary"); ("margin", "high")] |});
      ("REST API",
       {| name := "REST API"; category := "API";
          default_stage := COMMODITY; default_visibility := 0.5;
          examples := ["API"; "REST"; "HTTP API"];
          characteristics := mature |});
      ("OAuth2",
       {| name := "OAuth2"; category := "Authentication";
          default_stage := COMMODITY; default_visibility := 0.2;
          examples := ["OAuth"; "OAuth2"; "OpenID"];
          characteristics :=
            [("maturity", "standard"); ("adoption", "widespread"); ("margin", "low")] |})
    ] in
  {| rules := rules self; patterns := table_update (patterns self) patterns_ |}.

(** [self.rules.extend(new_rules)] *)
Definition extend_rules (new_rules : list HeuristicRule) (self : HeuristicsEngine)
  : HeuristicsEngine :=
  {| rules := rules self ++ new_rules; patterns := patterns self |}.

Definition _initialize_technical_heuristics (self : HeuristicsEngine) : HeuristicsEngine :=
  extend_rules
    [ rule "is_customer_interface and is_web" PRODUCT 0.85 "technical";
      rule "handles_core_business_logic" PRODUCT 0.8 "technical";
      rule "is_proprietary and high_business_value" CUSTOM 0.9 "technical";
      rule "is_infrastructure or is_hosting" COMMODITY 0.9 "technical";
      rule "is_open_source and widely_used" COMMODITY 0.85 "technical" ] self.

Definition _initialize_business_heuristics (self : HeuristicsEngine) : HeuristicsEngine :=
  extend_rules
    [ rule "directly_serves_customer" PRODUCT 0.85 "business";
      rule "provides_competitive_advantage" CUSTOM 0.9 "business";
      rule "is_support_function and can_be_outsourced" COMMODITY 0.8 "business";
      rule "is_new_market_category" GENESIS 0.85 "business" ] self.

Definition _initialize_competitive_heuristics (self : HeuristicsEngine) : HeuristicsEngine :=
  extend_rules
    [ rule "is_market_leader and dominant_position" PRODUCT 0.85 "competitive";
      rule "is_disruptive_innovation" GENESIS 0.9 "competitive";
      rule "is_highly_competitive and low_margin" COMMODITY 0.9 "competitive" ] self.

Definition _initialize_financial_heuristics (self : HeuristicsEngine) : HeuristicsEngine :=
  extend_rules
    [ rule "gross_margin_high" CUSTOM 0.85 "financial";
      rule "gross_margin_medium" PRODUCT 0.8 "financial";
      rule "gross_margin_low" COMMODITY 0.9 "financial";
      rule "rapid_revenue_growth" CUSTOM 0.7 "financial";
      rule "stable_low_revenue_growth" COMMODITY 0.8 "financial" ] self.

(** [HeuristicsEngine()] *)
Definition __init__ : HeuristicsEngine :=
  let self := {| rules := []; patterns := [] |} in
  let self := _initialize_patterns self in
  let self := _initialize_technical_heuristics self in
  let self := _initialize_business_heuristics self in
  let self := _initialize_competitive_heuristics self in
  _initialize_financial_heuristics self.

(** *** [_stage_to_score] *)

Definition _stage_to_score (stage : EvolutionStage) : Q :=
  match stage with
  | GENESIS => 0.15
  | CUSTOM => 0.4
  | PRODUCT => 0.7
  | COMMODITY => 0.9
  end.

(** *** [_levenshtein_similarity] *)

(** [enumerate(s)] *)
Definition enumerate (s : string) : list (nat * ascii) :=
  let cs := list_ascii_of_string s in
  combine (seq 0 (length cs)) cs.

(** One pass of the inner loop: the row for character [c1] at index [i]. *)
Definition next_row (s2 : string) (previous_row : list nat) (i : nat) (c1 : ascii)
  : list nat :=
  foldl (fun current_row '(j, c2) =>
           let insertions := (nth (j + 1) previous_row 0 + 1)%nat in
           let deletions := (nth j current_row 0 + 1)%nat in
           let substitutions :=
             (nth j previous_row 0 + (if Ascii.eqb c1 c2 then 0 else 1))%nat in
           current_row ++ [Nat.min (Nat.min insertions deletions) substitutions])
        [(i + 1)%nat] (enumerate s2).

(** [previous_row[-1]] after the outer loop. *)
Definition edit_distance (s1 s2 : string) : nat :=
  let previous_row :=
    foldl (fun previous_row '(i, c1) => next_row s2 previous_row i c1)
          (seq 0 (String.length s2 + 1)) (enumerate s1) in
  List.last previous_row 0%nat.

(** An [int] as an operand of [/]: the double of the same value (a length
    or a distance is far below 2^53, up to where every integer is a
    double). *)
Definition float_of_nat (n : nat) : float :=
  PrimFloat.of_uint63 (Uint63.of_Z (Z.of_nat n)).

(** The body of the function once [len(s1) >= len(s2)]; the division and
    the subtraction are those of binary64. *)
Definition similarity_ordered (s1 s2 : string) : float :=
  if (String.length s2 =? 0)%nat then 0.0%float
  else
    let distance := edit_distance s1 s2 in
    let max_length := Nat.max (String.length s1) (String.length s2) in
    (1.0 - float_of_nat distance / float_of_nat max_length)%float.

(** The function calls itself once, arguments swapped, when [s1] is the
    shorter string. *)
Definition _levenshtein_similarity (s1 s2 : string) : float :=
  if (String.length s1 <? String.length s2)%nat then similarity_ordered s2 s1
  else similarity_ordered s1 s2.

(** *** [_fuzzy_match] *)

(** [x > threshold] on two doubles is [threshold < x], false when one of
    them is not a number. *)
Definition _fuzzy_match (text1 text2 : string) (threshold : float) : bool :=
  let text1_lower := PyStr.strip (PyStr.lower text1) in
  let text2_lower := PyStr.strip (PyStr.lower text2) in
  if String.eqb text1_lower text2_lower then true
  else if PyStr.contains text1_lower text2_lower
          || PyStr.contains text2_lower text1_lower then true
  else if PrimFloat.ltb threshold (_levenshtein_similarity text1_lower text2_lower)
       then true
  else false.

(** The default value of [threshold]: the double written [0.8]. *)
Definition default_threshold : float := 0.8%float.

(** *** [_evaluate_rule_condition] *)

Definition _evaluate_rule_condition (condition : string) (context : gmap string PyVal)
  : PyVal :=
  let condition_key := PyStr.replace_char " " "_" (PyStr.lower condition) in
  default (PBool false) (context !! condition_key).

(** *** [_apply_heuristics] *)

(** The sort key [(r.priority, r.confidence)], compared as tuples. *)
Definition key_lt (r q : HeuristicRule) : bool :=
  (priority r <? priority q)%Z
  || ((priority r =? priority q)%Z && float_lt (confidence r) (confidence q)).

(** [rules.sort(key=..., reverse=True)]: stable, largest key first. *)
Fixpoint insert_by_key (r : HeuristicRule) (sorted : list HeuristicRule)
  : list HeuristicRule :=
  match sorted with
  | [] => [r]
  | q :: rest =>
      if key_lt r q then q :: insert_by_key r rest else r :: q :: rest
  end.

Definition sort_by_key_desc (l : list HeuristicRule) : list HeuristicRule :=
  foldr insert_by_key [] l.

Definition _apply_heuristics (self : HeuristicsEngine) (name : string)
    (context : gmap string PyVal) : Q :=
  let applicable_rules :=
    List.filter (fun r => truthy (_evaluate_rule_condition (condition r) context))
                (rules self) in
  match sort_by_key_desc applicable_rules with
  | [] => 0.5
  | best_rule :: _ => _stage_to_score (stage best_rule)
  end.

(** *** [_score_visibility_heuristic] *)

(** [context.get(key)] *)
Definition context_get (key : string) (context : gmap string PyVal) : PyVal :=
  default PNone (context !! key).

Definition _score_visibility_heuristic (name : string) (context : gmap string PyVal)
  : Q :=
  let name_lower := PyStr.lower name in
  let high_visibility :=
    ["customer"; "user"; "interface"; "portal"; "dashboard"; "ui"; "ux"; "frontend"] in
  let medium_visibility := ["api"; "service"; "layer"; "gateway"; "orchestration"] in
  let low_visibility :=
    ["database"; "storage"; "infrastructure"; "hosting"; "backend"; "core"; "engine"] in
  if existsb (fun word => PyStr.contains word name_lower) high_visibility then 0.85
  else if existsb (fun word => PyStr.contains word name_lower) medium_visibility then 0.5
  else if existsb (fun word => PyStr.contains word name_lower) low_visibility then 0.2
  else if truthy (context_get "is_customer_facing" context) then 0.85
  else if truthy (context_get "is_internal" context) then 0.3
  else 0.5.

(** *** [score_component] *)

(** The loop [for pattern_name, pattern in self.patterns.items()] returns
    at the first pattern whose key or one of whose examples matches. *)
Definition pattern_matches (name : string) (entry : string * ComponentPattern) : bool :=
  let '(pattern_name, pattern) := entry in
  _fuzzy_match name pattern_name default_threshold
  || existsb (fun ex => _fuzzy_match name ex default_threshold) (examples pattern).

Definition score_component (self : HeuristicsEngine) (name : string)
    (context : gmap string PyVal) : Q * Q :=
  match table_get name (patterns self) with
  | Some pattern =>
      (_stage_to_score (default_stage pattern), default_visibility pattern)
  | None =>
      match find (pattern_matches name) (patterns self) with
      | Some (_, pattern) =>
          (_stage_to_score (default_stage pattern), default_visibility pattern)
      | None =>
          let evolution_score := _apply_heuristics self name context in
          let visibility_score := _score_visibility_heuristic name context in
          (evolution_score, visibility_score)
      end
  end.

(** The returned tuple as the sequence of its items. *)
Definition tuple_items (t : Q * Q) : list Q := [fst t; snd t].

(** *** Notions used to state the properties *)

(** [text.lower().strip()], the form in which [_fuzzy_match] compares. *)
Definition normalize (text : string) : string := PyStr.strip (PyStr.lower text).

(** One of the two normalized strings occurs in the other. *)
Definition containment (a b : string) : bool :=
  PyStr.contains (normalize a) (normalize b)
  || PyStr.contains (normalize b) (normalize a).

(** [name] is a key of the pattern table or one of the examples (aliases)
    of a pattern. *)
Definition known_name (self : HeuristicsEngine) (name : string) : Prop :=
  (exists p, table_get name (patterns self) = Some p)
  \/ (exists k p, In (k, p) (patterns self) /\ In name (examples p)).

(** A score lies in the closed unit interval. *)
Definition in_unit_interval (x : Q) : Prop := (0 <= x)%Q /\ (x <= 1)%Q.

End Heuristics.

(** ** Further functions of the two modules and of their caller *)

(** *** [strategic_analyzer.py]: the convenience function, and notions
    used to state properties of the graph and of the search *)

Module AnalyzerMore.
Import Analyzer.

(** [analyze_wardley_map(components, dependencies)] *)
Definition analyze_wardley_map (components : list Component)
    (dependencies : list Edge) : outcome MapAnalysis :=
  analyze components dependencies.

(** Consecutive nodes of [path] are joined by an edge of [graph]. *)
Fixpoint follows_edges (graph : gmap string (list string)) (path : list string)
  : Prop :=
  match path with
  | x :: rest =>
      match rest with
      | y :: _ => In y (default [] (graph !! x)) /\ follows_edges graph rest
      | [] => True
      end
  | [] => True
  end.

(** Consecutive nodes of [path] are joined by a dependency. *)
Fixpoint chain (dependencies : list Edge) (path : list string) : Prop :=
  match path with
  | x :: rest =>
      match rest with
      | y :: _ => In (x, y) dependencies /\ chain dependencies rest
      | [] => True
      end
  | [] => True
  end.

(** A path open to the search from [start] under the set [visited]: it
    follows edges, and its nodes, the last one apart, are distinct and
    not visited.  (The last node may be any successor: a leaf, a node
    that closes a cycle, or a visited node.) *)
Definition search_path (graph : gmap string (list string))
    (visited : gset string) (start : string) (path : list string) : Prop :=
  (exists rest, path = start :: rest)
  /\ follows_edges graph path
  /\ List.NoDup (removelast path)
  /\ (forall x, In x (removelast path) -> x ∉ visited).

(** The same for a list of dependencies, from any starting node. *)
Definition dependency_path (dependencies : list Edge) (path : list string) : Prop :=
  chain dependencies path /\ List.NoDup (removelast path).

(** The type and the component of every insight, in the order of the
    list. *)
Definition signature (a : MapAnalysis) : list (InsightType * string) :=
  map (fun i => (type i, component i)) (insights a).

(** The two conditions of [_identify_strengths]. *)
Definition is_strength (c : Component) : bool :=
  (float_le 0.25 (evolution c) && float_le (evolution c) 0.55
   && float_ge (visibility c) 0.4)
  || (float_lt (evolution c) 0.25 && float_ge (visibility c) 0.5).

(** The three conditions of [_identify_opportunities], with the entry
    each one appends to [opportunities]. *)
Definition opportunity_entries (c : Component) : list string :=
  (if float_le 0.4 (evolution c) && float_le (evolution c) 0.55
      && float_ge (visibility c) 0.4
   then [name c] else [])
  ++ (if float_lt (evolution c) 0.25 then [name c] else [])
  ++ (if float_ge (evolution c) 0.85 && float_ge (visibility c) 0.7
      then [name c +:+ " (expansion)"] else []).

(** The two conditions of [_identify_threats], with their entries. *)
Definition threat_entries (c : Component) : list string :=
  (if float_le 0.3 (evolution c) && float_le (evolution c) 0.45
   then [name c] else [])
  ++ (if float_le 0.55 (evolution c) && float_lt (evolution c) 0.8
      then [name c +:+ " (competition)"] else []).

(** The number of dependencies whose target is [n], repetitions and
    self-loops included. *)
Definition incoming (dependencies : list Edge) (n : string) : nat :=
  length (List.filter (fun e => String.eqb (snd e) n) dependencies).

(** The condition of [_identify_bottlenecks]. *)
Definition is_bottleneck (dependencies : list Edge) (c : Component) : bool :=
  (3 <=? incoming dependencies (name c))%nat && float_lt (evolution c) 0.7.

(** The component is below the Commodity stage: [_assess_evolution_readiness]
    does not skip it. *)
Definition below_commodity (c : Component) : bool := float_lt (evolution c) 0.8.

(** The loop of [_identify_vulnerabilities] reads its local [deps] before
    any iteration has bound it: a component of the custom band comes
    before every component of visibility 0.7 or more. *)
Fixpoint reads_unbound_deps (components : list Component) : bool :=
  match components with
  | [] => false
  | c :: rest =>
      if float_ge (visibility c) 0.7 then false
      else if float_le 0.25 (evolution c) && float_le (evolution c) 0.55 then true
      else reads_unbound_deps rest
  end.

End AnalyzerMore.

(** * Properties *)

(** ** Loops *)

Lemma foldl_invariant {A B : Type} (P : A -> Prop) (f : A -> B -> A)
    (l : list B) (a : A) :
  P a -> (forall a b, P a -> P (f a b)) -> P (foldl f a l).
Proof.
  intros Ha Hstep. revert a Ha.
  induction l as [|b l IH]; intros a Ha; simpl; [exact Ha|].
  apply IH, Hstep, Ha.
Qed.

Lemma for_each_invariant {A S : Type} (P : S -> Prop)
    (body : S -> A -> outcome S) (l : list A) (s s' : S) :
  P s ->
  (forall s x s', P s -> body s x = Ok s' -> P s') ->
  for_each body l s = Ok s' -> P s'.
Proof.
  intros Hs Hstep. revert s Hs.
  induction l as [|x l IH]; intros s Hs Hrun; simpl in Hrun.
  - inversion Hrun; subst; exact Hs.
  - destruct (body s x) as [s1| |] eqn:Hb; simpl in Hrun; try discriminate.
    eapply IH; [|exact Hrun]. eapply Hstep; eauto.
Qed.

(** Two loop bodies that agree on every state satisfying an invariant of
    the first give the same loop. *)
Lemma for_each_ext {A S : Type} (P : S -> Prop)
    (f g : S -> A -> outcome S) (l : list A) (s : S) :
  P s ->
  (forall s x, P s -> In x l -> f s x = g s x) ->
  (forall s x s', P s -> In x l -> f s x = Ok s' -> P s') ->
  for_each f l s = for_each g l s.
Proof.
  revert s. induction l as [|x l IH]; intros s Hs Heq Hinv; simpl; [reflexivity|].
  rewrite <- (Heq s x Hs (or_introl eq_refl)).
  destruct (f s x) as [s1| |] eqn:Hf; simpl; try reflexivity.
  apply IH.
  - eapply Hinv; eauto. now left.
  - intros s2 y Hs2 Hy. apply Heq; [exact Hs2 | now right].
  - intros s2 y s3 Hs2 Hy. apply Hinv; [exact Hs2 | now right].
Qed.

(** A loop whose body always completes, completes. *)
Lemma for_each_returns {A S : Type} (P : S -> Prop)
    (body : S -> A -> outcome S) (l : list A) (s : S) :
  P s ->
  (forall s x, P s -> In x l -> exists s', body s x = Ok s' /\ P s') ->
  exists s', for_each body l s = Ok s' /\ P s'.
Proof.
  revert s. induction l as [|x l IH]; intros s Hs Hstep; simpl.
  - eauto.
  - destruct (Hstep s x Hs (or_introl eq_refl)) as (s1 & -> & Hs1). simpl.
    apply IH; [exact Hs1|].
    intros s2 y Hs2 Hy. apply Hstep; [exact Hs2 | now right].
Qed.

(** ** Float comparisons against each other *)

Lemma float_lt_spec (x y : Q) : float_lt x y = true <-> (x < y)%Q.
Proof.
  unfold float_lt. rewrite negb_true_iff.
  destruct (Qle_bool y x) eqn:E.
  - apply Qle_bool_iff in E. split; [discriminate | intros H; lra].
  - split; [intros _ | reflexivity].
    destruct (Qlt_le_dec x y) as [Hlt|Hle]; [exact Hlt|].
    apply Qle_bool_iff in Hle. congruence.
Qed.

Lemma float_le_spec (x y : Q) : float_le x y = true <-> (x <= y)%Q.
Proof. apply Qle_bool_iff. Qed.

Lemma float_ge_spec (x y : Q) : float_ge x y = true <-> (y <= x)%Q.
Proof. apply Qle_bool_iff. Qed.

Lemma float_lt_false (x y : Q) : float_lt x y = false <-> (y <= x)%Q.
Proof.
  rewrite <- not_true_iff_false, float_lt_spec. split; intros H; lra.
Qed.

(** ** The analyzer leaves its arguments alone *)

Module AnalyzerFacts.
Import Analyzer.

Lemma same_arguments_refl h : same_arguments h h.
Proof. split; reflexivity. Qed.

Lemma same_arguments_trans h1 h2 h3 :
  same_arguments h1 h2 -> same_arguments h2 h3 -> same_arguments h1 h3.
Proof. intros [H1 H2] [H3 H4]. split; congruence. Qed.

Lemma with_analysis_same f h : same_arguments h (with_analysis f h).
Proof. split; reflexivity. Qed.

Create HintDb frame.
#[local] Hint Resolve same_arguments_refl with_analysis_same : frame.

(** A loop over the components whose body keeps the arguments, keeps them. *)
Lemma foldl_same {B : Type} (body : Heap -> B -> Heap) (l : list B) (h : Heap) :
  (forall h0 b, same_arguments h0 (body h0 b)) ->
  same_arguments h (foldl body h l).
Proof.
  intros Hbody.
  apply (foldl_invariant (same_arguments h)); [apply same_arguments_refl|].
  intros h1 b H1. eapply same_arguments_trans; [exact H1 | apply Hbody].
Qed.

Ltac frame_cases :=
  repeat match goal with
         | |- context [if ?b then _ else _] => destruct b
         | |- context [match ?x with _ => _ end] => destruct x
         end;
  eauto using same_arguments_trans with frame.

Lemma strengths_body_same h comp : same_arguments h (strengths_body h comp).
Proof. unfold strengths_body. frame_cases. Qed.

Lemma opportunities_body_same h comp : same_arguments h (opportunities_body h comp).
Proof. unfold opportunities_body. frame_cases. Qed.

Lemma threats_body_same h comp : same_arguments h (threats_body h comp).
Proof. unfold threats_body. frame_cases. Qed.

Lemma bottlenecks_body_same g h comp : same_arguments h (bottlenecks_body g h comp).
Proof. unfold bottlenecks_body. frame_cases. Qed.

Lemma readiness_body_same h comp : same_arguments h (readiness_body h comp).
Proof. unfold readiness_body. frame_cases. Qed.

Lemma infrastructure_body_same n h t : same_arguments h (infrastructure_body n h t).
Proof. unfold infrastructure_body. frame_cases. Qed.

Lemma _identify_strengths_same h : same_arguments h (_identify_strengths h).
Proof. apply foldl_same, strengths_body_same. Qed.

Lemma _identify_opportunities_same h : same_arguments h (_identify_opportunities h).
Proof. apply foldl_same, opportunities_body_same. Qed.

Lemma _identify_threats_same h : same_arguments h (_identify_threats h).
Proof. apply foldl_same, threats_body_same. Qed.

Lemma _identify_bottlenecks_same h : same_arguments h (_identify_bottlenecks h).
Proof. apply foldl_same, bottlenecks_body_same. Qed.

Lemma _assess_evolution_readiness_same h :
  same_arguments h (_assess_evolution_readiness h).
Proof. apply foldl_same, readiness_body_same. Qed.

Lemma _generate_recommendations_same h :
  same_arguments h (_generate_recommendations h).
Proof. apply with_analysis_same. Qed.

Lemma vulnerabilities_body_same set_iter g h deps comp h' deps' :
  vulnerabilities_body set_iter g (h, deps) comp = Ok (h', deps') ->
  same_arguments h h'.
Proof.
  unfold vulnerabilities_body.
  set (h1 := foldl (infrastructure_body (name comp)) h _).
  assert (H1 : same_arguments h h1)
    by apply foldl_same, infrastructure_body_same.
  destruct (float_ge (visibility comp) 0.7);
    destruct (float_le 0.25 (evolution comp) && float_le (evolution comp) 0.55);
    try (intros [= <- <-]; auto using same_arguments_refl);
    try match goal with
        | |- context [match ?d with Some _ => _ | None => _ end] => destruct d
        end;
    try discriminate;
    repeat match goal with
           | |- context [if ?b then _ else _] => destruct b
           end;
    try (intros [= <- <-]; auto using same_arguments_refl);
    unfold first_of; destruct (set_iter _); simpl; try discriminate;
    intros [= <- <-];
    eauto using same_arguments_trans, with_analysis_same, same_arguments_refl.
Qed.

Lemma _identify_vulnerabilities_same set_iter h h' :
  _identify_vulnerabilities set_iter h = Ok h' -> same_arguments h h'.
Proof.
  unfold _identify_vulnerabilities.
  destruct (for_each _ _ _) as [[h1 d1]| |] eqn:Hloop; simpl; try discriminate.
  intros [= <-].
  change h1 with (fst (h1, d1)).
  eapply (for_each_invariant (fun st => same_arguments h (fst st))
            _ _ (h, None)); [apply same_arguments_refl | | exact Hloop].
  intros [h2 d2] comp [h3 d3] H2 Hbody. simpl in *.
  eapply same_arguments_trans; [exact H2|].
  eapply vulnerabilities_body_same; exact Hbody.
Qed.

Lemma _identify_critical_path_same fuel h h' :
  _identify_critical_path fuel h = Ok h' -> same_arguments h h'.
Proof.
  unfold _identify_critical_path.
  destruct (for_each _ _ _) as [paths| |]; simpl; try discriminate.
  destruct (sort_by_len_desc paths); intros [= <-]; auto with frame.
Qed.

Lemma analyze_run_same set_iter fuel comps deps h :
  analyze_run set_iter fuel comps deps = Ok h ->
  components h = comps /\ dependencies h = deps.
Proof.
  unfold analyze_run.
  set (h0 := {| components := comps; dependencies := deps; analysis := _ |}).
  pose proof (_identify_strengths_same h0) as H1.
  destruct (_identify_vulnerabilities set_iter _) as [h2| |] eqn:E2;
    simpl; try discriminate.
  apply _identify_vulnerabilities_same in E2.
  pose proof (_identify_opportunities_same h2) as H3.
  pose proof (_identify_threats_same (_identify_opportunities h2)) as H4.
  pose proof (_identify_bottlenecks_same
                (_identify_threats (_identify_opportunities h2))) as H5.
  pose proof (_assess_evolution_readiness_same
                (_identify_bottlenecks
                   (_identify_threats (_identify_opportunities h2)))) as H6.
  destruct (_identify_critical_path fuel _) as [h7| |] eqn:E7;
    simpl; try discriminate.
  apply _identify_critical_path_same in E7.
  intros [= <-].
  pose proof (_generate_recommendations_same h7) as H8.
  assert (Hall : same_arguments h0 (_generate_recommendations h7))
    by eauto 10 using same_arguments_trans.
  exact Hall.
Qed.


(** ** The longest-path search *)

Lemma dfs_unfold fuel start graph comps visited :
  _dfs_longest_path (S fuel) start graph comps visited =
  if bool_decide (start ∈ default ∅ visited) then Ok ([start], visited)
  else
    match graph !! start with
    | None => Ok ([start], visited)
    | Some [] => Ok ([start], visited)
    | Some neighbors =>
        do st <- for_each
             (dfs_neighbor
                (fun neighbor v => _dfs_longest_path fuel neighbor graph comps v)
                start)
             neighbors ([start], default ∅ visited ∪ {[start]});
        Ok (fst st, visited)
    end.
Proof. reflexivity. Qed.

(** A call hands back the set it was given. *)
Lemma dfs_returns_visited fuel start graph comps visited path after :
  _dfs_longest_path fuel start graph comps visited = Ok (path, after) ->
  after = visited.
Proof.
  destruct fuel as [|fuel]; [discriminate|].
  rewrite dfs_unfold.
  destruct (bool_decide _); [congruence|].
  destruct (graph !! start) as [[|n ns]|]; try congruence.
  destruct (for_each _ _ _); simpl; congruence.
Qed.

(** Hence the local copy is the same set for every neighbor. *)
Lemma dfs_neighbors_share fuel start graph comps neighbors longest visited st :
  for_each
    (dfs_neighbor (fun neighbor v => _dfs_longest_path fuel neighbor graph comps v)
                  start)
    neighbors (longest, visited) = Ok st ->
  snd st = visited.
Proof.
  intros Hloop.
  eapply (for_each_invariant (fun st => snd st = visited) _ _ (longest, visited));
    [reflexivity | | exact Hloop].
  intros [l v] nb [l' v'] Hv. simpl in Hv. subst v. unfold dfs_neighbor.
  destruct (_dfs_longest_path _ _ _ _ _) as [[p after]| |] eqn:Hrec;
    simpl; try discriminate.
  apply dfs_returns_visited in Hrec. subst after. simpl.
  destruct (_ <? _)%nat; intros [= <- <-]; reflexivity.
Qed.

Lemma unvisited_enter graph visited start neighbors :
  start ∉ default ∅ visited ->
  graph !! start = Some neighbors ->
  unvisited graph (Some (default ∅ visited ∪ {[start]})) < unvisited graph visited.
Proof.
  intros Hnew Hkey. unfold unvisited. simpl.
  assert (Hdom : start ∈ dom graph) by (apply elem_of_dom; eauto).
  apply subset_size. split.
  - intros x Hx. apply elem_of_difference in Hx as [Hx Hv].
    apply elem_of_difference. split; [exact Hx|].
    intros Hv'. apply Hv, elem_of_union. left. exact Hv'.
  - intros Hsub. specialize (Hsub start).
    rewrite !elem_of_difference, elem_of_union, elem_of_singleton in Hsub.
    tauto.
Qed.

(** With more fuel than unvisited nodes the search returns a path. *)
Lemma dfs_enough_fuel fuel start graph comps visited :
  unvisited graph visited < fuel ->
  exists path, _dfs_longest_path fuel start graph comps visited = Ok (path, visited).
Proof.
  revert start visited.
  induction fuel as [|fuel IH]; intros start visited Hfuel; [lia|].
  rewrite dfs_unfold.
  destruct (bool_decide (start ∈ default ∅ visited)) eqn:Hin; [eauto|].
  apply bool_decide_eq_false in Hin.
  destruct (graph !! start) as [[|n ns]|] eqn:Hkey; eauto.
  pose proof (unvisited_enter graph visited start _ Hin Hkey) as Hless.
  set (v' := default ∅ visited ∪ {[start]}) in *.
  destruct (for_each_returns (fun st => snd st = v')
              (dfs_neighbor
                 (fun neighbor v => _dfs_longest_path fuel neighbor graph comps v)
                 start)
              (n :: ns) ([start], v')) as (st & -> & _); [reflexivity| |simpl; eauto].
  intros [l v] nb Hv _. simpl in Hv. subst v. unfold dfs_neighbor.
  destruct (IH nb (Some v')) as [p ->]; [lia|]. simpl.
  destruct (_ <? _)%nat; eauto.
Qed.

(** Beyond that amount the fuel does not matter. *)
Lemma dfs_fuel_irrelevant fuel1 fuel2 start graph comps visited :
  unvisited graph visited < fuel1 ->
  unvisited graph visited < fuel2 ->
  _dfs_longest_path fuel1 start graph comps visited =
  _dfs_longest_path fuel2 start graph comps visited.
Proof.
  revert fuel2 start visited.
  induction fuel1 as [|fuel1 IH]; intros fuel2 start visited H1 H2; [lia|].
  destruct fuel2 as [|fuel2]; [lia|].
  rewrite !dfs_unfold.
  destruct (bool_decide (start ∈ default ∅ visited)) eqn:Hin; [reflexivity|].
  apply bool_decide_eq_false in Hin.
  destruct (graph !! start) as [[|n ns]|] eqn:Hkey; try reflexivity.
  pose proof (unvisited_enter graph visited start _ Hin Hkey) as Hless.
  set (v' := default ∅ visited ∪ {[start]}) in *.
  f_equal.
  apply (for_each_ext (fun st => snd st = v')); [reflexivity | |].
  - intros [l v] nb Hv _. simpl in Hv. subst v. unfold dfs_neighbor.
    rewrite (IH fuel2 nb (Some v')) by lia. reflexivity.
  - intros [l v] nb st' Hv _ Hbody. simpl in Hv. subst v.
    unfold dfs_neighbor in Hbody.
    destruct (_dfs_longest_path _ _ _ _ _) as [[p after]| |] eqn:Hrec;
      simpl in Hbody; try discriminate.
    apply dfs_returns_visited in Hrec. subst after. simpl in Hbody.
    destruct (_ <? _)%nat; inversion Hbody; reflexivity.
Qed.

(** A node already on the current path ends the branch at once. *)
Lemma dfs_on_path fuel start graph comps visited :
  start ∈ visited ->
  _dfs_longest_path (S fuel) start graph comps (Some visited) =
  Ok ([start], Some visited).
Proof.
  intros Hin. rewrite dfs_unfold. simpl.
  rewrite bool_decide_eq_true_2 by exact Hin. reflexivity.
Qed.

(** The graph has at most one key per edge. *)
Lemma dom_graph_append graph k v :
  dom (graph_append graph k v) = {[k]} ∪ dom graph.
Proof. unfold graph_append. apply dom_insert_L. Qed.

Lemma build_graph_size_from (graph : gmap string (list string)) deps :
  size (dom (foldl (fun graph '(source, target) => graph_append graph source target)
                   graph deps))
  <= size (dom graph) + length deps.
Proof.
  revert graph. induction deps as [|[s t] deps IH]; intros graph; simpl; [lia|].
  etransitivity; [apply IH|].
  rewrite dom_graph_append, size_union_alt, size_singleton.
  assert (Hsub : dom graph ∖ {[s]} ⊆ dom graph)
    by (intros x Hx; apply elem_of_difference in Hx; tauto).
  apply subseteq_size in Hsub. simpl. lia.
Qed.

Lemma build_graph_size deps :
  size (dom (_build_dependency_graph deps)) <= length deps.
Proof.
  unfold _build_dependency_graph.
  etransitivity; [apply build_graph_size_from|].
  rewrite dom_empty_L, size_empty. unfold Edge. lia.
Qed.

Lemma unvisited_initial deps fuel :
  search_fuel deps <= fuel ->
  unvisited (_build_dependency_graph deps) None < fuel.
Proof.
  intros Hfuel. unfold unvisited, search_fuel in *. simpl.
  pose proof (build_graph_size deps) as Hsize.
  assert (Hsub : size (dom (_build_dependency_graph deps) ∖ (∅ : gset string))
                 <= size (dom (_build_dependency_graph deps)))
    by (apply subseteq_size; intros x Hx;
        apply elem_of_difference in Hx; tauto).
  lia.
Qed.

(** ** Every pass completes or raises *)

Lemma for_each_fuel_free {A S : Type} (body : S -> A -> outcome S) l s :
  (forall s x, body s x <> OutOfFuel) -> for_each body l s <> OutOfFuel.
Proof.
  intros Hbody. revert s. induction l as [|x l IH]; intros s; simpl; [discriminate|].
  destruct (body s x) eqn:Hb; simpl; try discriminate; [apply IH|].
  exfalso. eapply Hbody; eauto.
Qed.

Lemma vulnerabilities_body_fuel_free set_iter g st comp :
  vulnerabilities_body set_iter g st comp <> OutOfFuel.
Proof.
  destruct st as [h deps]. unfold vulnerabilities_body, first_of.
  repeat match goal with
         | |- context [if ?b then _ else _] => destruct b
         | |- context [match ?x with _ => _ end] => destruct x
         end; simpl; discriminate.
Qed.

Lemma _identify_vulnerabilities_fuel_free set_iter h :
  _identify_vulnerabilities set_iter h <> OutOfFuel.
Proof.
  unfold _identify_vulnerabilities.
  destruct (for_each _ _ _) eqn:Hloop; simpl; try discriminate.
  exfalso. revert Hloop.
  apply for_each_fuel_free, vulnerabilities_body_fuel_free.
Qed.

Lemma critical_path_body_returns fuel deps comps paths comp :
  search_fuel deps <= fuel ->
  exists paths',
    critical_path_body fuel (_build_dependency_graph deps) comps paths comp
    = Ok paths'.
Proof.
  intros Hfuel. unfold critical_path_body.
  destruct (float_lt (evolution comp) 0.25); [|eauto].
  destruct (dfs_enough_fuel fuel (name comp) (_build_dependency_graph deps)
              comps None (unvisited_initial deps fuel Hfuel)) as [p ->].
  simpl. destruct p; eauto.
Qed.

Lemma _identify_critical_path_returns fuel h :
  search_fuel (dependencies h) <= fuel ->
  returns (_identify_critical_path fuel h).
Proof.
  intros Hfuel. unfold _identify_critical_path.
  destruct (for_each_returns (fun _ => True)
              (critical_path_body fuel (_build_dependency_graph (dependencies h))
                 (components h))
              (components h) []) as (paths & -> & _); [exact I| |].
  - intros paths comp _ _.
    destruct (critical_path_body_returns fuel (dependencies h) (components h)
                paths comp Hfuel) as [paths' ->]. eauto.
  - simpl. destruct (sort_by_len_desc paths); eexists; reflexivity.
Qed.

Lemma _identify_critical_path_fuel fuel1 fuel2 h :
  search_fuel (dependencies h) <= fuel1 ->
  search_fuel (dependencies h) <= fuel2 ->
  _identify_critical_path fuel1 h = _identify_critical_path fuel2 h.
Proof.
  intros H1 H2. unfold _identify_critical_path.
  f_equal.
  apply (for_each_ext (fun _ => True)); [exact I | | trivial].
  intros paths comp _ _. unfold critical_path_body.
  destruct (float_lt (evolution comp) 0.25); [|reflexivity].
  rewrite (dfs_fuel_irrelevant fuel1 fuel2)
    by (apply unvisited_initial; assumption).
  reflexivity.
Qed.

(** [analyze] is its first six passes, the search and the recommendations. *)
Lemma analyze_run_passes set_iter fuel comps deps :
  analyze_run set_iter fuel comps deps =
  do h <- analyze_passes set_iter comps deps;
  do h <- _identify_critical_path fuel h;
  Ok (_generate_recommendations h).
Proof.
  unfold analyze_run, analyze_passes.
  destruct (_identify_vulnerabilities set_iter _); reflexivity.
Qed.

Lemma analyze_passes_same set_iter comps deps h :
  analyze_passes set_iter comps deps = Ok h ->
  components h = comps /\ dependencies h = deps.
Proof.
  unfold analyze_passes.
  set (h0 := {| components := comps; dependencies := deps; analysis := _ |}).
  pose proof (_identify_strengths_same h0) as H1.
  destruct (_identify_vulnerabilities set_iter _) as [h2| |] eqn:E2;
    simpl; try discriminate.
  apply _identify_vulnerabilities_same in E2.
  pose proof (_identify_opportunities_same h2) as H3.
  pose proof (_identify_threats_same (_identify_opportunities h2)) as H4.
  pose proof (_identify_bottlenecks_same
                (_identify_threats (_identify_opportunities h2))) as H5.
  pose proof (_assess_evolution_readiness_same
                (_identify_bottlenecks
                   (_identify_threats (_identify_opportunities h2)))) as H6.
  intros [= <-].
  assert (Hall : same_arguments h0
            (_assess_evolution_readiness
               (_identify_bottlenecks
                  (_identify_threats (_identify_opportunities h2)))))
    by eauto 10 using same_arguments_trans.
  exact Hall.
Qed.

Lemma analyze_passes_fuel_free set_iter comps deps :
  analyze_passes set_iter comps deps <> OutOfFuel.
Proof.
  unfold analyze_passes.
  destruct (_identify_vulnerabilities set_iter _) eqn:E; simpl; try discriminate.
  exfalso. revert E. apply _identify_vulnerabilities_fuel_free.
Qed.

Lemma analyze_run_completes set_iter fuel comps deps :
  search_fuel deps <= fuel ->
  returns (analyze_run set_iter fuel comps deps)
  \/ raises (analyze_run set_iter fuel comps deps).
Proof.
  intros Hfuel. rewrite analyze_run_passes.
  destruct (analyze_passes set_iter comps deps) as [h|e|] eqn:Hp; simpl.
  - apply analyze_passes_same in Hp as [_ Hd].
    destruct (_identify_critical_path_returns fuel h) as [h' ->];
      [rewrite Hd; exact Hfuel|].
    left. eexists; reflexivity.
  - right. eexists; reflexivity.
  - exfalso. revert Hp. apply analyze_passes_fuel_free.
Qed.

Lemma analyze_run_fuel set_iter fuel1 fuel2 comps deps :
  search_fuel deps <= fuel1 ->
  search_fuel deps <= fuel2 ->
  analyze_run set_iter fuel1 comps deps = analyze_run set_iter fuel2 comps deps.
Proof.
  intros H1 H2. rewrite !analyze_run_passes.
  destruct (analyze_passes set_iter comps deps) as [h|e|] eqn:Hp; simpl;
    try reflexivity.
  apply analyze_passes_same in Hp as [_ Hd].
  rewrite (_identify_critical_path_fuel fuel1 fuel2) by (rewrite Hd; assumption).
  reflexivity.
Qed.

Lemma analyze_completes comps deps :
  returns (analyze comps deps) \/ raises (analyze comps deps).
Proof.
  unfold analyze.
  destruct (analyze_run_completes elements (search_fuel deps) comps deps
              (le_n _)) as [[h ->]|[e ->]]; simpl.
  - left. eexists; reflexivity.
  - right. eexists; reflexivity.
Qed.

(** ** The evolution trajectory *)

Ltac field_cases :=
  repeat match goal with
         | |- context [if ?b then _ else _] => destruct b
         | |- context [match ?x with _ => _ end] => destruct x
         end;
  simpl; try assumption; try reflexivity.

(** Only [_assess_evolution_readiness] writes [evolution_trajectory]. *)
Lemma foldl_trajectory {B : Type} (body : Heap -> B -> Heap) l h :
  (forall h0 b,
     evolution_trajectory (analysis (body h0 b))
     = evolution_trajectory (analysis h0)) ->
  evolution_trajectory (analysis (foldl body h l))
  = evolution_trajectory (analysis h).
Proof.
  intros Hbody.
  apply (foldl_invariant
           (fun h' => evolution_trajectory (analysis h')
                      = evolution_trajectory (analysis h))); [reflexivity|].
  intros h1 b H1. rewrite Hbody. exact H1.
Qed.

Lemma _identify_strengths_trajectory h :
  evolution_trajectory (analysis (_identify_strengths h))
  = evolution_trajectory (analysis h).
Proof.
  apply foldl_trajectory. intros h0 c. unfold strengths_body. field_cases.
Qed.

Lemma _identify_opportunities_trajectory h :
  evolution_trajectory (analysis (_identify_opportunities h))
  = evolution_trajectory (analysis h).
Proof.
  apply foldl_trajectory. intros h0 c. unfold opportunities_body. field_cases.
Qed.

Lemma _identify_threats_trajectory h :
  evolution_trajectory (analysis (_identify_threats h))
  = evolution_trajectory (analysis h).
Proof.
  apply foldl_trajectory. intros h0 c. unfold threats_body. field_cases.
Qed.

Lemma _identify_bottlenecks_trajectory h :
  evolution_trajectory (analysis (_identify_bottlenecks h))
  = evolution_trajectory (analysis h).
Proof.
  apply foldl_trajectory. intros h0 c. unfold bottlenecks_body. field_cases.
Qed.

Lemma vulnerabilities_body_trajectory set_iter g h deps comp h' deps' :
  vulnerabilities_body set_iter g (h, deps) comp = Ok (h', deps') ->
  evolution_trajectory (analysis h') = evolution_trajectory (analysis h).
Proof.
  unfold vulnerabilities_body.
  set (h1 := foldl (infrastructure_body (name comp)) h _).
  assert (H1 : evolution_trajectory (analysis h1)
               = evolution_trajectory (analysis h)).
  { apply foldl_trajectory. intros h0 t. unfold infrastructure_body. field_cases. }
  unfold first_of.
  repeat match goal with
         | |- context [if ?b then _ else _] => destruct b
         | |- context [match ?x with _ => _ end] => destruct x
         end; simpl; try discriminate; intros [= <- <-]; simpl; auto.
Qed.

Lemma _identify_vulnerabilities_trajectory set_iter h h' :
  _identify_vulnerabilities set_iter h = Ok h' ->
  evolution_trajectory (analysis h') = evolution_trajectory (analysis h).
Proof.
  unfold _identify_vulnerabilities.
  destruct (for_each _ _ _) as [[h1 d1]| |] eqn:Hloop; simpl; try discriminate.
  intros [= <-].
  change h1 with (fst (h1, d1)).
  eapply (for_each_invariant
            (fun st => evolution_trajectory (analysis (fst st))
                       = evolution_trajectory (analysis h))
            _ _ (h, None)); [reflexivity | | exact Hloop].
  intros [h2 d2] comp [h3 d3] H2 Hbody. simpl in *.
  rewrite <- H2. eapply vulnerabilities_body_trajectory; exact Hbody.
Qed.

Lemma _identify_critical_path_trajectory fuel h h' :
  _identify_critical_path fuel h = Ok h' ->
  evolution_trajectory (analysis h') = evolution_trajectory (analysis h).
Proof.
  unfold _identify_critical_path.
  destruct (for_each _ _ _) as [paths| |]; simpl; try discriminate.
  destruct (sort_by_len_desc paths); intros [= <-]; reflexivity.
Qed.

(** What the readiness pass writes for a component whose name is unique. *)
Lemma readiness_other comps h (n : string) :
  ~ In n (map name comps) ->
  evolution_trajectory (analysis (foldl readiness_body h comps)) !! n
  = evolution_trajectory (analysis h) !! n.
Proof.
  revert h. induction comps as [|c0 comps IH]; intros h Hn; simpl; [reflexivity|].
  simpl in Hn. rewrite IH by tauto.
  unfold readiness_body.
  destruct (readiness_stage (evolution c0)) as [[cur tgt]|]; simpl; [|reflexivity].
  apply lookup_insert_ne. tauto.
Qed.

Lemma readiness_lookup comps h c :
  List.NoDup (map name comps) ->
  In c comps ->
  evolution_trajectory (analysis (foldl readiness_body h comps)) !! name c
  = match readiness_stage (evolution c) with
    | Some (current, stage_target) => Some (current +:+ " → " +:+ stage_target)
    | None => evolution_trajectory (analysis h) !! name c
    end.
Proof.
  revert h. induction comps as [|c0 comps IH]; intros h Hnd Hin; [destruct Hin|].
  simpl in Hnd. apply List.NoDup_cons_iff in Hnd as [Hfresh Hnd].
  simpl. destruct Hin as [<-|Hin].
  - rewrite readiness_other by exact Hfresh.
    unfold readiness_body.
    destruct (readiness_stage (evolution c0)) as [[cur tgt]|]; simpl; [|reflexivity].
    apply lookup_insert_eq.
  - rewrite IH by assumption.
    destruct (readiness_stage (evolution c)) as [[cur tgt]|]; [reflexivity|].
    unfold readiness_body.
    destruct (readiness_stage (evolution c0)) as [[cur tgt]|]; simpl; [|reflexivity].
    apply lookup_insert_ne. intros Heq. apply Hfresh. rewrite Heq.
    apply in_map, Hin.
Qed.

Lemma analyze_passes_trajectory set_iter comps deps h c :
  analyze_passes set_iter comps deps = Ok h ->
  List.NoDup (map name comps) ->
  In c comps ->
  evolution_trajectory (analysis h) !! name c
  = match readiness_stage (evolution c) with
    | Some (current, stage_target) => Some (current +:+ " → " +:+ stage_target)
    | None => None
    end.
Proof.
  unfold analyze_passes.
  set (h0 := {| components := comps; dependencies := deps; analysis := _ |}).
  destruct (_identify_vulnerabilities set_iter _) as [h2| |] eqn:E2;
    simpl; try discriminate.
  intros [= <-] Hnd Hin.
  pose proof (_identify_vulnerabilities_same _ _ _ E2) as [Hc2 _].
  pose proof (_identify_strengths_same h0) as [Hc1 _].
  apply _identify_vulnerabilities_trajectory in E2.
  rewrite _identify_strengths_trajectory in E2.
  unfold _assess_evolution_readiness.
  set (h5 := _identify_bottlenecks _).
  assert (Hc5 : components h5 = comps).
  { unfold h5.
    rewrite (proj1 (_identify_bottlenecks_same _)),
            (proj1 (_identify_threats_same _)),
            (proj1 (_identify_opportunities_same _)).
    rewrite Hc2, Hc1. reflexivity. }
  assert (Ht5 : evolution_trajectory (analysis h5) = ∅).
  { unfold h5.
    rewrite _identify_bottlenecks_trajectory, _identify_threats_trajectory,
            _identify_opportunities_trajectory, E2. reflexivity. }
  rewrite Hc5, readiness_lookup by assumption.
  rewrite Ht5, lookup_empty. reflexivity.
Qed.

Lemma analyze_trajectory comps deps a c :
  analyze comps deps = Ok a ->
  List.NoDup (map name comps) ->
  In c comps ->
  evolution_trajectory a !! name c
  = match readiness_stage (evolution c) with
    | Some (current, stage_target) => Some (current +:+ " → " +:+ stage_target)
    | None => None
    end.
Proof.
  unfold analyze. rewrite analyze_run_passes.
  destruct (analyze_passes elements comps deps) as [h| |] eqn:Hp;
    simpl; try discriminate.
  destruct (_identify_critical_path _ h) as [h'| |] eqn:Hc;
    simpl; try discriminate.
  intros [= <-] Hnd Hin. simpl.
  rewrite (_identify_critical_path_trajectory _ _ _ Hc).
  eapply analyze_passes_trajectory; eassumption.
Qed.

(** ** Iteration order of sets *)

Lemma first_of_listing set_iter (X : gset string) :
  set_listing set_iter -> size X = 1 ->
  first_of set_iter X = first_of elements X.
Proof.
  intros Hiter Hsize. unfold first_of.
  pose proof (Hiter X) as Hperm.
  change (size X) with (length (elements X)) in Hsize.
  destruct (elements X) as [|x [|y l]]; simpl in Hsize; try discriminate.
  apply Permutation_singleton_r in Hperm. rewrite Hperm. reflexivity.
Qed.

Lemma vulnerabilities_body_listing set_iter g st comp :
  set_listing set_iter ->
  vulnerabilities_body set_iter g st comp = vulnerabilities_body elements g st comp.
Proof.
  intros Hiter. destruct st as [h deps]. unfold vulnerabilities_body.
  repeat match goal with
         | |- context [if ?b then _ else _] => destruct b eqn:?
         | |- context [match ?x with Some _ => _ | None => _ end] => destruct x
         end; try reflexivity;
  rewrite first_of_listing; auto; apply Nat.eqb_eq; assumption.
Qed.

Lemma analyze_run_listing set_iter fuel comps deps :
  set_listing set_iter ->
  analyze_run set_iter fuel comps deps = analyze_run elements fuel comps deps.
Proof.
  intros Hiter. unfold analyze_run, _identify_vulnerabilities.
  set (h1 := _identify_strengths _).
  set (g := _build_dependency_graph (dependencies h1)).
  rewrite (for_each_ext (fun _ => True)
             (vulnerabilities_body set_iter g) (vulnerabilities_body elements g));
    [reflexivity | exact I | | trivial].
  intros st comp _ _. apply vulnerabilities_body_listing, Hiter.
Qed.

(** ** The analyzer on small maps *)

(** Scenario 5 of the specification: a chain of four components of which
    only the first is at the genesis stage. *)
Example critical_path_of_a_chain :
  exists a,
    analyze [{| name := "A"; evolution := 0.1; visibility := 0.5 |};
             {| name := "B"; evolution := 0.6; visibility := 0.5 |};
             {| name := "C"; evolution := 0.7; visibility := 0.5 |};
             {| name := "D"; evolution := 0.9; visibility := 0.5 |}]
            [("A", "B"); ("B", "C"); ("C", "D")] = Ok a
    /\ critical_path a = ["A"; "B"; "C"; "D"].
Proof. eexists. split; [vm_compute; reflexivity | reflexivity]. Qed.

(** Of two paths of the same length the first found is kept. *)
Example critical_path_first_of_equals :
  exists a,
    analyze [{| name := "A"; evolution := 0.1; visibility := 0.5 |};
             {| name := "B"; evolution := 0.1; visibility := 0.5 |}]
            [("A", "X"); ("B", "Y")] = Ok a
    /\ critical_path a = ["A"; "X"].
Proof. eexists. split; [vm_compute; reflexivity | reflexivity]. Qed.

(** The example of the module itself. *)
Example analysis_of_test_components :
  exists a,
    analyze test_components test_dependencies = Ok a
    /\ critical_path a
       = ["Custom ML Model"; "PostgreSQL Database"; "AWS Infrastructure"]
    /\ competitive_advantages a = ["Recommendation Engine"]
    /\ map component (insights a)
       = ["Recommendation Engine"; "Recommendation Engine"; "Custom ML Model";
          "Customer Portal"; "Recommendation Engine"; "Customer Portal";
          "Recommendation Engine"; "Custom ML Model"].
Proof.
  eexists. split; [vm_compute; reflexivity|]. repeat split; reflexivity.
Qed.
End AnalyzerFacts.

(** ** The scorer *)

Module HeuristicsFacts.
Import Heuristics.

(** *** Strings *)

Lemma prefix_refl s : String.prefix s s = true.
Proof.
  induction s as [|c s IH]; simpl; [reflexivity|].
  destruct (ascii_dec c c) as [_|Hne]; [exact IH | contradiction].
Qed.

Lemma prefix_empty s : String.prefix "" s = true.
Proof. destruct s; reflexivity. Qed.

Lemma contains_unfold needle hay :
  PyStr.contains needle hay =
  String.prefix needle hay
  || match hay with
     | EmptyString => false
     | String _ rest => PyStr.contains needle rest
     end.
Proof. destruct hay; reflexivity. Qed.

Lemma contains_refl s : PyStr.contains s s = true.
Proof. rewrite contains_unfold, prefix_refl. reflexivity. Qed.

(** The empty string occurs in every string. *)
Lemma contains_empty s : PyStr.contains "" s = true.
Proof. rewrite contains_unfold, prefix_empty. reflexivity. Qed.

(** *** [_levenshtein_similarity] *)

Lemma similarity_ordered_empty s : similarity_ordered s "" = 0.0%float.
Proof. reflexivity. Qed.

Lemma _levenshtein_similarity_empty_r s : _levenshtein_similarity s "" = 0.0%float.
Proof. unfold _levenshtein_similarity. simpl. reflexivity. Qed.

Lemma _levenshtein_similarity_empty_l s : _levenshtein_similarity "" s = 0.0%float.
Proof.
  unfold _levenshtein_similarity. destruct s; simpl; reflexivity.
Qed.

(** *** Comparison of doubles *)

(** No double is smaller than itself (a number is equal to itself, and
    what is not a number compares false with everything). *)
Lemma double_lt_irrefl (x : float) : (x <? x)%float = false.
Proof.
  rewrite FloatAxioms.ltb_spec. unfold SFltb, SFcompare.
  destruct (Prim2SF x) as [s|s| |s m e]; try destruct s; try reflexivity.
  - rewrite Z.compare_refl, Pos.compare_refl. reflexivity.
  - rewrite Z.compare_refl. rewrite Pos.compare_refl. reflexivity.
Qed.

(** *** [_fuzzy_match] *)

Lemma _fuzzy_match_spec a b t :
  _fuzzy_match a b t = true <->
  containment a b = true
  \/ (t <? _levenshtein_similarity (normalize a) (normalize b))%float = true.
Proof.
  unfold _fuzzy_match, containment. fold (normalize a). fold (normalize b).
  destruct (String.eqb (normalize a) (normalize b)) eqn:Heq.
  - apply String.eqb_eq in Heq. rewrite Heq, contains_refl. simpl. tauto.
  - destruct (PyStr.contains (normalize a) (normalize b)
              || PyStr.contains (normalize b) (normalize a)); [tauto|].
    destruct (PrimFloat.ltb t _); [tauto|].
    split; [discriminate|]. intros [Hc|Hlt]; discriminate.
Qed.

(** *** Ranges *)

Lemma _stage_to_score_range s : in_unit_interval (_stage_to_score s).
Proof. destruct s; split; simpl; lra. Qed.

Lemma _score_visibility_heuristic_range name ctx :
  in_unit_interval (_score_visibility_heuristic name ctx).
Proof.
  unfold _score_visibility_heuristic.
  repeat match goal with
         | |- context [if ?b then _ else _] => destruct b
         end; split; lra.
Qed.

Lemma _apply_heuristics_range self name ctx :
  in_unit_interval (_apply_heuristics self name ctx).
Proof.
  unfold _apply_heuristics.
  destruct (sort_by_key_desc _); [split; lra | apply _stage_to_score_range].
Qed.

Lemma table_get_In key table p :
  table_get key table = Some p -> In (key, p) table.
Proof.
  induction table as [|[k q] table IH]; simpl; [discriminate|].
  destruct (String.eqb k key) eqn:Hk.
  - apply String.eqb_eq in Hk. intros [= ->]. left. congruence.
  - intros H. right. apply IH, H.
Qed.

(** Every default visibility of the built-in table is a score. *)
Lemma patterns_visibility_range :
  Forall (fun entry => in_unit_interval (default_visibility (snd entry)))
         (patterns __init__).
Proof. repeat constructor; simpl; lra. Qed.

Lemma score_component_range self name ctx :
  Forall (fun entry => in_unit_interval (default_visibility (snd entry)))
         (patterns self) ->
  in_unit_interval (fst (score_component self name ctx))
  /\ in_unit_interval (snd (score_component self name ctx)).
Proof.
  intros Hvis. rewrite List.Forall_forall in Hvis. unfold score_component.
  destruct (table_get name (patterns self)) as [p|] eqn:Hget.
  - apply table_get_In in Hget. simpl. split.
    + apply _stage_to_score_range.
    + apply (Hvis _ Hget).
  - destruct (find (pattern_matches name) (patterns self)) as [[k p]|] eqn:Hfind.
    + apply find_some in Hfind as [Hin _]. simpl. split.
      * apply _stage_to_score_range.
      * apply (Hvis _ Hin).
    + simpl. split.
      * apply _apply_heuristics_range.
      * apply _score_visibility_heuristic_range.
Qed.

(** *** Known names *)

Lemma _fuzzy_match_same a t : _fuzzy_match a a t = true.
Proof. unfold _fuzzy_match. rewrite String.eqb_refl. reflexivity. Qed.

(** A known name is scored from the table, never from the context. *)
Lemma score_component_known self name ctx :
  known_name self name ->
  exists k p,
    In (k, p) (patterns self)
    /\ score_component self name ctx
       = (_stage_to_score (default_stage p), default_visibility p)
    /\ score_component self name ∅ = score_component self name ctx.
Proof.
  intros Hknown. unfold score_component.
  destruct (table_get name (patterns self)) as [p|] eqn:Hget.
  - exists name, p. apply table_get_In in Hget. auto.
  - destruct Hknown as [[p Hp]|(k & p & Hin & Hex)]; [congruence|].
    destruct (find (pattern_matches name) (patterns self)) as [[k' p']|] eqn:Hfind.
    + exists k', p'. apply find_some in Hfind as [Hin' _]. auto.
    + exfalso. apply (find_none _ _ Hfind) in Hin. simpl in Hin.
      apply orb_false_iff in Hin as [_ Hnone].
      assert (Hsome : existsb (fun ex => _fuzzy_match name ex default_threshold)
                              (examples p) = true).
      { apply existsb_exists. exists name. split; [exact Hex|].
        apply _fuzzy_match_same. }
      congruence.
Qed.

(** *** The scorer on small inputs *)

(** Scenario 2 of the specification: no pattern, no rule, no keyword. *)
Example score_of_an_unknown_name :
  score_component __init__ "Totally Novel Widget" ∅ = (0.5%Q, 0.5%Q).
Proof. vm_compute. reflexivity. Qed.

(** A rule selected by the context, and a visibility keyword in the name. *)
Example score_from_rule_and_keyword :
  score_component __init__ "Billing Engine"
    (<["gross_margin_high" := PBool true]> ∅) = (0.4%Q, 0.2%Q).
Proof. vm_compute. reflexivity. Qed.

(** The empty name is contained in the first key of the table. *)
Example score_of_the_empty_name :
  score_component __init__ "" ∅ = (0.9%Q, 0.15%Q).
Proof. vm_compute. reflexivity. Qed.

Example edit_distance_kitten_sitting : edit_distance "sitting" "kitten" = 3%nat.
Proof. reflexivity. Qed.

(** *** Characters above 127 *)

(** [lower()] of "ÉCOLE" (the first character is 201) is "école" (233). *)
Example lower_of_a_capital_with_accent :
  PyStr.lower (String "201" "COLE") = String "233" "cole".
Proof. reflexivity. Qed.

(** The no-break space (160) and the next-line control (133) are stripped. *)
Example strip_of_no_break_space :
  PyStr.strip (String "160" (" a b" +:+ String "133" "")) = "a b".
Proof. reflexivity. Qed.

(** "É" and "é" are equal once lower-cased, and match. *)
Example _fuzzy_match_capital_with_accent t :
  _fuzzy_match (String "201" "") (String "233" "") t = true.
Proof. reflexivity. Qed.

(** "PyTörch" (the fourth character is 246) has seven characters, one
    substitution away from the key "PyTorch": the similarity 1.0 - 1/7 is
    above 0.8 and the name is scored as the pattern is. *)
Example score_of_a_name_with_a_diaeresis :
  String.length ("PyT" +:+ String "246" "rch") = 7%nat
  /\ score_component __init__ ("PyT" +:+ String "246" "rch") ∅ = (0.7%Q, 0.3%Q).
Proof. split; vm_compute; reflexivity. Qed.

(** *** The similarity as a double *)

(** One edit in five characters: 1.0 - 1/5 is the double written 0.8. *)
Example similarity_one_in_five :
  _levenshtein_similarity "abcde" "abcdx" = 0.8%float.
Proof. vm_compute. reflexivity. Qed.

(** Seven edits in ten characters: 1.0 - 7/10 is the double after the one
    written 0.3. *)
Example similarity_seven_in_ten :
  _levenshtein_similarity "abcdefghij" "abcklmnopq" = PrimFloat.next_up 0.3%float
  /\ (0.3 <? _levenshtein_similarity "abcdefghij" "abcklmnopq")%float = true.
Proof. split; vm_compute; reflexivity. Qed.

End HeuristicsFacts.

(** * The claims about the analyzer *)

Module AnalyzerClaims.
Import Analyzer AnalyzerFacts.

(** C1 (dangling edges).  The specification says that an edge whose target
    is not a component is skipped and that the unknown name reaches no
    output.  The search for the critical path follows every edge of the
    graph and never consults the component list it is handed: for the
    single genesis component A with the edge A -> Ghost the call returns
    normally with the critical path [A; Ghost].  The single-source check
    does the same: for a custom, highly visible A the unknown name is
    written into [vulnerabilities]. *)
Theorem dangling_edge_reaches_outputs :
  (exists a,
     analyze [{| name := "A"; evolution := 0.1; visibility := 0.5 |}]
             [("A", "Ghost")] = Ok a
     /\ critical_path a = ["A"; "Ghost"])
  /\ (exists a,
        analyze [{| name := "A"; evolution := 0.4; visibility := 0.8 |}]
                [("A", "Ghost")] = Ok a
        /\ vulnerabilities a = ["A: Single source - Ghost"]).
Proof.
  split; eexists; (split; [vm_compute; reflexivity | reflexivity]).
Qed.

(** C2 (single point of failure).  The specification asks for a
    single-point-of-failure insight for every custom-stage component with
    exactly one distinct out-edge target, whatever its visibility, and for
    a pass that never raises.  The local variable [deps] of the pass is
    bound only for components of visibility at least 0.7.  For a first
    component of lower visibility in the custom band the pass raises
    [UnboundLocalError]; after a component of high visibility the check
    reads the edges of that earlier component, here reporting Y as the
    single source of A, which has no edge at all.  On the example of the
    module itself the Recommendation Engine, whose only edge goes to the
    Custom ML Model, is reported as its own single source. *)
Theorem single_point_check_reads_unbound_deps :
  analyze [{| name := "A"; evolution := 0.4; visibility := 0.5 |}]
          [("A", "B")]
  = Raise (UnboundLocalError "deps")
  /\ (exists a,
        analyze [{| name := "X"; evolution := 0.9; visibility := 0.9 |};
                 {| name := "A"; evolution := 0.4; visibility := 0.5 |}]
                [("X", "Y")] = Ok a
        /\ vulnerabilities a = ["A: Single source - Y"])
  /\ (exists a,
        analyze test_components test_dependencies = Ok a
        /\ vulnerabilities a
           = ["Recommendation Engine: Single source - Recommendation Engine"]).
Proof.
  split; [vm_compute; reflexivity|].
  split; eexists; (split; [vm_compute; reflexivity | reflexivity]).
Qed.

(** C3 (termination).  On every component list and every edge list,
    cyclic or not, [analyze] completes: it returns or it raises, and the
    search never runs out of the fuel [search_fuel] gives it; any larger
    amount of fuel gives the same outcome.  A branch of the search that
    reaches a node already on the current path ends there with the
    one-node path. *)
Theorem analyze_terminates comps deps fuel start graph visited path_fuel :
  search_fuel deps <= fuel ->
  start ∈ visited ->
  (returns (analyze comps deps) \/ raises (analyze comps deps))
  /\ analyze_run elements fuel comps deps
     = analyze_run elements (search_fuel deps) comps deps
  /\ _dfs_longest_path (S path_fuel) start graph comps (Some visited)
     = Ok ([start], Some visited).
Proof.
  intros Hfuel Hin. split; [apply analyze_completes|]. split.
  - apply analyze_run_fuel; [exact Hfuel | apply le_n].
  - apply dfs_on_path, Hin.
Qed.

(** The two-node cycle A -> B -> A of the specification. *)
Lemma analyze_terminates_witness :
  let comps := [{| name := "A"; evolution := 0.1; visibility := 0.5 |};
                {| name := "B"; evolution := 0.1; visibility := 0.5 |}] in
  let deps := [("A", "B"); ("B", "A")] in
  (returns (analyze comps deps) \/ raises (analyze comps deps))
  /\ analyze_run elements 7 comps deps
     = analyze_run elements (search_fuel deps) comps deps
  /\ _dfs_longest_path 1 "A" (_build_dependency_graph deps) comps
       (Some {["A"; "B"]})
     = Ok (["A"], Some {["A"; "B"]}).
Proof.
  intros comps deps.
  apply (analyze_terminates comps deps 7 "A" (_build_dependency_graph deps)
           {["A"; "B"]} 0).
  - vm_compute. lia.
  - set_solver.
Defined.

(** C6 (evolution trajectory).  In an analysis of components with
    distinct names, a component below 0.8 has one entry in
    [evolution_trajectory], under its name, which names its current stage
    and its target: genesis components are mapped to Product, custom ones
    to Product, product ones to Commodity; a component at 0.8 or above has
    no entry.  (The loop body writes that one entry for a component below
    0.8 and nothing for one at 0.8 or above, whatever the names.)  In
    scenario 3 of the specification "Custom ML Model" is
    absent from [competitive_advantages] and present in
    [evolution_trajectory]. *)
Theorem evolution_trajectory_per_component comps deps a c :
  analyze comps deps = Ok a ->
  List.NoDup (map name comps) ->
  In c comps ->
  let entry := evolution_trajectory a !! name c in
  ((evolution c < 0.25)%Q -> entry = Some "Genesis → Product")
  /\ ((0.25 <= evolution c)%Q -> (evolution c < 0.55)%Q ->
      entry = Some "Custom → Product")
  /\ ((0.55 <= evolution c)%Q -> (evolution c < 0.8)%Q ->
      entry = Some "Product → Commodity")
  /\ ((evolution c < 0.8)%Q ->
      exists target,
        entry = Some (_stage_label (evolution c) +:+ " → " +:+ target))
  /\ ((0.8 <= evolution c)%Q -> entry = None)
  /\ ((evolution c < 0.8)%Q ->
      exists s, forall h,
        evolution_trajectory (analysis (readiness_body h c))
        = <[name c := s]> (evolution_trajectory (analysis h)))
  /\ ((0.8 <= evolution c)%Q -> forall h, readiness_body h c = h)
  /\ (exists a3,
        analyze [{| name := "Custom ML Model"; evolution := 0.2; visibility := 0.4 |};
                 {| name := "Database"; evolution := 0.9; visibility := 0.1 |}]
                [("Custom ML Model", "Database")] = Ok a3
        /\ ~ In "Custom ML Model" (competitive_advantages a3)
        /\ evolution_trajectory a3 !! "Custom ML Model"
           = Some "Genesis → Product").
Proof.
  intros Hrun Hnd Hin entry.
  assert (Hentry : entry = match readiness_stage (evolution c) with
                           | Some (current, stage_target) =>
                               Some (current +:+ " → " +:+ stage_target)
                           | None => None
                           end)
    by (eapply analyze_trajectory; eassumption).
  clearbody entry. subst entry.
  unfold readiness_body, readiness_stage, _stage_label.
  destruct (float_lt (evolution c) 0.25) eqn:H1;
    [apply float_lt_spec in H1 | apply float_lt_false in H1];
  (destruct (float_lt (evolution c) 0.55) eqn:H2;
    [apply float_lt_spec in H2 | apply float_lt_false in H2]);
  (destruct (float_lt (evolution c) 0.8) eqn:H3;
    [apply float_lt_spec in H3 | apply float_lt_false in H3]);
  (repeat split;
   try (intros; exfalso; lra);
   try (intros; reflexivity);
   try (intros; eexists; reflexivity);
   try (eexists; split; [vm_compute; reflexivity|];
        split; [simpl; tauto | reflexivity])).
Qed.

Lemma evolution_trajectory_per_component_witness :
  exists a,
    analyze [{| name := "Custom ML Model"; evolution := 0.2; visibility := 0.4 |};
             {| name := "Database"; evolution := 0.9; visibility := 0.1 |}]
            [("Custom ML Model", "Database")] = Ok a
    /\ evolution_trajectory a !! "Custom ML Model" = Some "Genesis → Product"
    /\ evolution_trajectory a !! "Database" = None.
Proof.
  eexists. split; [vm_compute; reflexivity|].
  split.
  - refine (proj1 (evolution_trajectory_per_component
                     [{| name := "Custom ML Model"; evolution := 0.2; visibility := 0.4 |};
                      {| name := "Database"; evolution := 0.9; visibility := 0.1 |}]
                     [("Custom ML Model", "Database")] _
                     {| name := "Custom ML Model"; evolution := 0.2; visibility := 0.4 |}
                     _ _ _) _).
    + vm_compute. reflexivity.
    + repeat constructor; simpl; intuition discriminate.
    + simpl. tauto.
    + simpl. lra.
  - refine (proj1 (proj2 (proj2 (proj2 (proj2
              (evolution_trajectory_per_component
                 [{| name := "Custom ML Model"; evolution := 0.2; visibility := 0.4 |};
                  {| name := "Database"; evolution := 0.9; visibility := 0.1 |}]
                 [("Custom ML Model", "Database")] _
                 {| name := "Database"; evolution := 0.9; visibility := 0.1 |}
                 _ _ _))))) _).
    + vm_compute. reflexivity.
    + repeat constructor; simpl; intuition discriminate.
    + simpl. tauto.
    + simpl. lra.
Defined.

(** C9 (determinism).  The only order Python leaves open in either
    function is the iteration order of a set, which [analyze] uses in
    [list(providers)[0]].  Whatever admissible order two runs see, on the
    same components and edges they give the same outcome: the same
    exception, or analyses equal in every field, the order of the insights,
    of the critical path and of the recommendations included.
    [score_component] reads its context through lookups only: two runs on
    the same name and on contexts with the same entries return the same
    pair. *)
Theorem analyze_and_score_deterministic
    (iter1 iter2 : gset string -> list string) fuel comps deps
    (engine_name : string) (ctx1 ctx2 : gmap string Heuristics.PyVal) :
  set_listing iter1 ->
  set_listing iter2 ->
  (forall key, ctx1 !! key = ctx2 !! key) ->
  analyze_run iter1 fuel comps deps = analyze_run iter2 fuel comps deps
  /\ Heuristics.score_component Heuristics.__init__ engine_name ctx1
     = Heuristics.score_component Heuristics.__init__ engine_name ctx2.
Proof.
  intros H1 H2 Hctx. split.
  - rewrite (analyze_run_listing iter1), (analyze_run_listing iter2) by assumption.
    reflexivity.
  - rewrite (map_eq ctx1 ctx2 Hctx). reflexivity.
Qed.

(** Two opposite iteration orders, on a map where the single-source check
    fires, and a context built in two insertion orders. *)
Lemma analyze_and_score_deterministic_witness :
  let comps := [{| name := "A"; evolution := 0.4; visibility := 0.8 |};
                {| name := "B"; evolution := 0.9; visibility := 0.1 |}] in
  let deps := [("A", "B")] in
  let ctx1 : gmap string Heuristics.PyVal :=
    <["is_internal" := Heuristics.PBool true]>
      (<["gross_margin_low" := Heuristics.PBool true]> ∅) in
  let ctx2 : gmap string Heuristics.PyVal :=
    <["gross_margin_low" := Heuristics.PBool true]>
      (<["is_internal" := Heuristics.PBool true]> ∅) in
  analyze_run elements 2 comps deps
  = analyze_run (fun X => reverse (elements X)) 2 comps deps
  /\ Heuristics.score_component Heuristics.__init__ "Ledger" ctx1
     = Heuristics.score_component Heuristics.__init__ "Ledger" ctx2.
Proof.
  intros comps deps ctx1 ctx2.
  apply (analyze_and_score_deterministic
           elements (fun X => reverse (elements X)) 2 comps deps "Ledger" ctx1 ctx2).
  - intros X. reflexivity.
  - intros X. apply reverse_Permutation.
  - intros key. unfold ctx1, ctx2.
    destruct (decide (key = "is_internal")) as [->|Hne1].
    + vm_compute. reflexivity.
    + destruct (decide (key = "gross_margin_low")) as [->|Hne2].
      * vm_compute. reflexivity.
      * rewrite !lookup_insert_ne by congruence. reflexivity.
Defined.

(** C10 (no mutation of the arguments).  When [analyze] returns, the
    component list and the edge list it was handed are as they were at the
    call.  The search hands back the visited set it was given unchanged,
    and within one call the local copy is the same set before and after
    every neighbor: a branch never sees the nodes of a sibling branch. *)
Theorem analyze_keeps_its_arguments
    set_iter fuel comps deps h
    dfs_fuel start graph visited path after
    neighbors longest (local : gset string) st :
  analyze_run set_iter fuel comps deps = Ok h ->
  _dfs_longest_path dfs_fuel start graph comps visited = Ok (path, after) ->
  for_each
    (dfs_neighbor
       (fun neighbor v => _dfs_longest_path dfs_fuel neighbor graph comps v) start)
    neighbors (longest, local) = Ok st ->
  (components h = comps /\ dependencies h = deps)
  /\ after = visited
  /\ snd st = local.
Proof.
  intros Hrun Hdfs Hloop. split; [|split].
  - eapply analyze_run_same; exact Hrun.
  - eapply dfs_returns_visited; exact Hdfs.
  - eapply dfs_neighbors_share; exact Hloop.
Qed.

Lemma analyze_keeps_its_arguments_witness :
  let comps := [{| name := "A"; evolution := 0.1; visibility := 0.5 |};
                {| name := "B"; evolution := 0.4; visibility := 0.8 |};
                {| name := "C"; evolution := 0.9; visibility := 0.1 |}] in
  let deps := [("A", "B"); ("A", "C"); ("B", "C")] in
  let graph := _build_dependency_graph deps in
  exists h path st,
    analyze_run elements 4 comps deps = Ok h
    /\ _dfs_longest_path 4 "A" graph comps (Some ∅) = Ok (path, Some ∅)
    /\ for_each
         (dfs_neighbor
            (fun neighbor v => _dfs_longest_path 4 neighbor graph comps v) "A")
         ["B"; "C"] (["A"], {["A"]}) = Ok st
    /\ (components h = comps /\ dependencies h = deps)
    /\ snd st = {["A"]}.
Proof.
  intros comps deps graph.
  eexists. eexists. eexists.
  split; [vm_compute; reflexivity|].
  split; [vm_compute; reflexivity|].
  split; [vm_compute; reflexivity|].
  refine (let H := analyze_keeps_its_arguments
                     elements 4 comps deps _ 4 "A" graph (Some ∅) _ _
                     ["B"; "C"] ["A"] {["A"]} _ _ _ _ in
          conj (proj1 H) (proj2 (proj2 H))).
  - vm_compute. reflexivity.
  - vm_compute. reflexivity.
  - vm_compute. reflexivity.
Defined.

End AnalyzerClaims.

(** * The claims about the scorer *)

Module HeuristicsClaims.
Import Heuristics HeuristicsFacts.

(** C4, as the specification states it: the result for "PostgreSQL" carries
    a confidence of at least 0.9.  The tuple returned has two items, the
    evolution and the visibility; there is no item for a confidence. *)
Lemma score_component_has_no_confidence :
  ~ (exists conf : Q,
       tuple_items (score_component __init__ "PostgreSQL" ∅) !! 2%nat = Some conf
       /\ (0.9 <= conf)%Q).
Proof. intros (conf & Hitem & _). vm_compute in Hitem. discriminate. Qed.

(** C4, amended.  For every context, "PostgreSQL" is scored (0.9, 0.15).
    A name that is a key of the pattern table or an alias of one of its
    patterns is scored with the stage score and the default visibility of
    a pattern of the table, the same for every context; the result is a
    pair, without a confidence. *)
Theorem score_component_known_name name ctx :
  known_name __init__ name ->
  score_component __init__ "PostgreSQL" ctx = (0.9%Q, 0.15%Q)
  /\ (exists k p,
        In (k, p) (patterns __init__)
        /\ score_component __init__ name ctx
           = (_stage_to_score (default_stage p), default_visibility p))
  /\ score_component __init__ name ∅ = score_component __init__ name ctx
  /\ length (tuple_items (score_component __init__ name ctx)) = 2%nat.
Proof.
  intros Hknown. split; [reflexivity|].
  destruct (score_component_known __init__ name ctx Hknown)
    as (k & p & Hin & Hscore & Hctx).
  split; [exists k, p; auto|]. split; [exact Hctx | reflexivity].
Qed.

(** The alias "RDBMS" of the pattern PostgreSQL, under a context that would
    otherwise select the Genesis stage. *)
Lemma score_component_known_name_witness :
  let ctx : gmap string PyVal := <["is_disruptive_innovation" := PBool true]> ∅ in
  score_component __init__ "PostgreSQL" ctx = (0.9%Q, 0.15%Q)
  /\ score_component __init__ "RDBMS" ∅ = score_component __init__ "RDBMS" ctx.
Proof.
  intros ctx.
  refine (let H := score_component_known_name "RDBMS" ctx _ in
          conj (proj1 H) (proj1 (proj2 (proj2 H)))).
  right. exists "PostgreSQL".
  eexists. split; [left; reflexivity|]. simpl. tauto.
Defined.

(** C5 (range).  For every name and every context, both scores returned
    by [score_component] lie between 0 and 1. *)
Theorem score_component_in_range name (ctx : gmap string PyVal) :
  (0 <= fst (score_component __init__ name ctx))%Q
  /\ (fst (score_component __init__ name ctx) <= 1)%Q
  /\ (0 <= snd (score_component __init__ name ctx))%Q
  /\ (snd (score_component __init__ name ctx) <= 1)%Q.
Proof.
  destruct (score_component_range __init__ name ctx patterns_visibility_range)
    as [[H1 H2] [H3 H4]].
  auto.
Qed.

(** C7, as the specification states it: a match exactly when the
    similarity is at least the threshold or one string contains the other.
    "abcde" and "abcdx" are one substitution apart in five characters:
    neither contains the other, the similarity computed, 1.0 - 1/5, is the
    double 0.8, which is the threshold, and the matcher reports no match. *)
Lemma fuzzy_match_at_threshold_is_no_match :
  ~ (_fuzzy_match "abcde" "abcdx" default_threshold = true <->
     (default_threshold
      <=? _levenshtein_similarity (normalize "abcde") (normalize "abcdx"))%float = true
     \/ containment "abcde" "abcdx" = true).
Proof.
  intros [_ Hmatch].
  assert (Hsim : (default_threshold
                  <=? _levenshtein_similarity (normalize "abcde") (normalize "abcdx"))%float
                 = true)
    by (vm_compute; reflexivity).
  specialize (Hmatch (or_introl Hsim)).
  vm_compute in Hmatch. discriminate.
Qed.

(** C7, amended.  For all strings and every threshold (a double), the
    matcher reports a match exactly when one normalized string contains the
    other (equal strings included) or the similarity, as
    [_levenshtein_similarity] computes it in double arithmetic, is strictly
    greater than the threshold; containment matches whatever the threshold.
    A pair without containment whose computed similarity equals the
    threshold is not a match, as for "abcde" and "abcdx" at 0.8, where
    1.0 - 1/5 is the double 0.8.  The comparison is that of the doubles
    computed: seven edits in ten characters give 1.0 - 7/10, the double
    above 0.3, which matches at the threshold 0.3. *)
Theorem fuzzy_match_strictly_above_threshold a b (t : float) :
  (_fuzzy_match a b t = true <->
   containment a b = true
   \/ (t <? _levenshtein_similarity (normalize a) (normalize b))%float = true)
  /\ (containment a b = true -> _fuzzy_match a b t = true)
  /\ (containment a b = false ->
      _levenshtein_similarity (normalize a) (normalize b) = t ->
      _fuzzy_match a b t = false)
  /\ _levenshtein_similarity (normalize "abcde") (normalize "abcdx") = 0.8%float
  /\ containment "abcde" "abcdx" = false
  /\ _fuzzy_match "abcde" "abcdx" 0.8 = false
  /\ _levenshtein_similarity (normalize "abcdefghij") (normalize "abcklmnopq")
     = (1.0 - 7 / 10)%float
  /\ containment "abcdefghij" "abcklmnopq" = false
  /\ _fuzzy_match "abcdefghij" "abcklmnopq" 0.3 = true.
Proof.
  split; [apply _fuzzy_match_spec|].
  split; [intros Hc; apply _fuzzy_match_spec; left; exact Hc|].
  split.
  { intros Hc Hsim. destruct (_fuzzy_match a b t) eqn:Hm; [|reflexivity].
    apply _fuzzy_match_spec in Hm as [Hc'|Hlt]; [congruence|].
    rewrite Hsim, double_lt_irrefl in Hlt. discriminate. }
  repeat split; vm_compute; reflexivity.
Qed.

(** C8, as the specification states it: the similarity of two empty
    strings is 0.0 and they do not match, for any threshold.  The matcher
    compares the normalized strings for equality before it looks at the
    similarity: two empty strings match. *)
Lemma empty_strings_match :
  ~ (_levenshtein_similarity "" "" = 0.0%float
     /\ forall t, _fuzzy_match "" "" t = false).
Proof.
  intros [_ Hno]. specialize (Hno 0.8%float). vm_compute in Hno. discriminate.
Qed.

(** C8, amended.  The similarity is 0.0 as soon as one of the two strings
    is empty, two empty strings included; two empty strings are
    nevertheless a match for every threshold, and so is the empty string
    with any other string, because it is contained in it. *)
Theorem empty_string_similarity_and_match s (t : float) :
  _levenshtein_similarity "" "" = 0.0%float
  /\ _levenshtein_similarity s "" = 0.0%float
  /\ _levenshtein_similarity "" s = 0.0%float
  /\ _fuzzy_match "" "" t = true
  /\ _fuzzy_match "" s t = true.
Proof.
  split; [reflexivity|].
  split; [apply _levenshtein_similarity_empty_r|].
  split; [apply _levenshtein_similarity_empty_l|].
  split; [reflexivity|].
  apply _fuzzy_match_spec. left. unfold containment.
  change (normalize "") with "". rewrite contains_empty. reflexivity.
Qed.

End HeuristicsClaims.
